(** * Formatter plugins (Black, pyupgrade) and options parsing of Pants

    A shallow embedding of

    - [src/python/pants/backend/python/lint/black/rules.py],
    - [src/python/pants/backend/python/lint/pyupgrade/rules.py],
    - [src/python/pants/engine/internals/options_parsing.py].

    The rules are [async] functions that [await Get(...)] requests answered by
    the engine.  A rule is embedded as a term of the free monad [Rule] over
    the request signature [Get]; [run] interprets it against an [Engine] of
    collaborators and returns the outcome together with the list of
    collaborator calls that were issued, in order. *)

From Stdlib Require Import ZArith List String Ascii Bool Lia.
From Stdlib.Strings Require Import Byte.
From stdpp Require Import base option list strings pretty gmap.

Import ListNotations.
Local Open Scope string_scope.
Local Open Scope list_scope.

(** ** Engine values *)

Definition bytes := list byte.

(** [pants.engine.fs.Digest]: a fingerprint and the length of the content. *)
Record Digest := mkDigest {
  fingerprint : string;
  serialized_bytes_length : Z }.

(** [pants.engine.internals.native_engine.Snapshot]: the rules read its
    [digest], [files] and [dirs]. *)
Record Snapshot := mkSnapshot {
  digest : Digest;
  files : list string;
  dirs : list string }.

Inductive LogLevel := TRACE | DEBUG | INFO | WARN | ERROR.

Definition PythonSourceField := string.
Definition InterpreterConstraintsField := option (list string).
Definition InterpreterConstraints := list string.

(** Modelled from the spec: the tool materialization request
    ([PexRequest], built by the subsystems' [to_pex_request], which are not
    among the sources) "returns an executable runtime handle for a named tool
    given an effective version constraint".  [None] is a call of
    [to_pex_request()] without the [interpreter_constraints] keyword. *)
Record PexRequest := mkPexRequest {
  pex_tool : string;
  pex_interpreter_constraints : option InterpreterConstraints }.

Record VenvPex := mkVenvPex { venv_pex_handle : string }.

Definition SourceFilesRequest := list PythonSourceField.

(** Modelled from the spec: the source snapshot request "returns a Snapshot
    for a given set of source locators"; [SourceFiles.files] is the file list
    of that snapshot. *)
Record SourceFiles := mkSourceFiles { snapshot : Snapshot }.

Definition SourceFiles_files (s : SourceFiles) : list string := files (snapshot s).

(** Modelled from the spec: the config discovery request, "given a set of
    directories, returns a Snapshot of zero or more matched configuration
    files"; [config_request] of a subsystem (not among the sources) passes the
    explicitly configured path and the directories. *)
Record ConfigFilesRequest := mkConfigFilesRequest {
  cfr_tool : string;
  cfr_specified : option string;
  cfr_dirs : list string }.

Record ConfigFiles := mkConfigFiles { config_snapshot : Snapshot }.

Definition MergeDigests := list Digest.

(** [VenvPexProcess(pex, argv=..., input_digest=..., output_files=...,
    concurrency_available=..., description=..., level=...)].  A keyword that
    the call site leaves out is [None]. *)
Record VenvPexProcess := mkVenvPexProcess {
  vp_pex : VenvPex;
  vp_argv : list string;
  vp_input_digest : Digest;
  vp_output_files : list string;
  vp_concurrency_available : option nat;
  vp_description : string;
  vp_level : LogLevel }.

(** The engine's [Process], as it derives it from a [VenvPexProcess]. *)
Record Process := mkProcess {
  proc_argv : list string;
  proc_input_digest : Digest;
  proc_output_files : list string;
  proc_description : string }.

Module FallibleProcessResult.
Record t := mk {
  stdout : bytes;
  stderr : bytes;
  exit_code : Z;
  output_digest : Digest }.
End FallibleProcessResult.

Module ProcessResult.
Record t := mk {
  stdout : bytes;
  stderr : bytes;
  output_digest : Digest }.
End ProcessResult.

(** ** Failures *)

Inductive EngineError :=
| NoCompatibleRuntime
| SourceNotFound (path : string)
| MergeConflict (path : string)
| SandboxError (msg : string)
| ProcessExecutionFailure (exit_code : Z) (stdout stderr : bytes)
| UnicodeDecodeError
| KeyError
| AssertionError.

Inductive Outcome (A : Type) : Type :=
| Ok (a : A)
| Failed (e : EngineError).

Arguments Ok {A} a.
Arguments Failed {A} e.

(** ** Requests to the engine *)

(** One constructor per [Get(Output, Input, ...)] shape used by the rules,
    and [MultiGet] for two requests issued together. *)
Inductive Get : Type -> Type :=
| Get_VenvPex (r : PexRequest) : Get VenvPex
| Get_SourceFiles (r : SourceFilesRequest) : Get SourceFiles
| Get_ConfigFiles (r : ConfigFilesRequest) : Get ConfigFiles
| Get_Digest (r : MergeDigests) : Get Digest
| Get_Process (r : VenvPexProcess) : Get Process
| Get_ProcessResult (r : Process) : Get ProcessResult.t
| Get_FallibleProcessResult (r : VenvPexProcess) : Get FallibleProcessResult.t
| Get_Snapshot (r : Digest) : Get Snapshot
| MultiGet {X Y : Type} (a : Get X) (b : Get Y) : Get (X * Y).

(** A rule body: it returns, raises, or awaits a request and goes on with
    the answer. *)
Inductive Rule (A : Type) : Type :=
| Return (a : A)
| Raise (e : EngineError)
| Await {X : Type} (g : Get X) (k : X -> Rule A).

Arguments Return {A} a.
Arguments Raise {A} e.
Arguments Await {A X} g k.

Fixpoint bind {A B : Type} (m : Rule A) (f : A -> Rule B) : Rule B :=
  match m with
  | Return a => f a
  | Raise e => Raise e
  | Await g k => Await g (fun x => bind (k x) f)
  end.

Declare Scope rule_scope.
Delimit Scope rule_scope with rule.
Bind Scope rule_scope with Rule.

Notation "x <- 'await' g ;; k" := (Await g (fun x => k))
  (at level 100, g at next level, right associativity) : rule_scope.
Notation "x <- 'call' m ;; k" := (bind m (fun x => k))
  (at level 100, m at next level, right associativity) : rule_scope.

(** ** The collaborators and the interpretation of a rule *)

(** The external services of the engine.  Config discovery never fails and an
    empty result is valid; building a [Process] from a [VenvPexProcess] and
    loading the snapshot of a digest are lookups. *)
Record Engine := mkEngine {
  venv_pex : PexRequest -> Outcome VenvPex;
  source_files : SourceFilesRequest -> Outcome SourceFiles;
  config_files : ConfigFilesRequest -> ConfigFiles;
  merge_digests : MergeDigests -> Outcome Digest;
  venv_pex_process : VenvPexProcess -> Process;
  execute : Process -> Outcome FallibleProcessResult.t;
  snapshot_of_digest : Digest -> Snapshot }.

(** What reached a collaborator. *)
Inductive Call :=
| PexCall (r : PexRequest)
| SourceFilesCall (r : SourceFilesRequest)
| ConfigFilesCall (r : ConfigFilesRequest)
| MergeCall (r : MergeDigests)
| BuildProcessCall (r : VenvPexProcess)
| ExecuteCall (p : Process)
| SnapshotCall (d : Digest).

(** Modelled from the spec: the process-execution collaborator
    ([pants.engine.process], not among the sources) "returns exit status,
    stdout, stderr, and an output digest; may fail with runtime error".  A
    request for a [ProcessResult] turns a non-zero exit status into the
    failure [ProcessExecutionFailure] carrying the captured streams; a request
    for a [FallibleProcessResult] hands the exit status to the caller. *)
Definition fallible_to_exec_result_or_raise (r : FallibleProcessResult.t)
  : Outcome ProcessResult.t :=
  if (FallibleProcessResult.exit_code r =? 0)%Z
  then Ok (ProcessResult.mk (FallibleProcessResult.stdout r)
             (FallibleProcessResult.stderr r)
             (FallibleProcessResult.output_digest r))
  else Failed (ProcessExecutionFailure (FallibleProcessResult.exit_code r)
                 (FallibleProcessResult.stdout r)
                 (FallibleProcessResult.stderr r)).

Definition join2 {X Y : Type} (a : Outcome X) (b : Outcome Y) : Outcome (X * Y) :=
  match a, b with
  | Ok x, Ok y => Ok (x, y)
  | Failed e, _ => Failed e
  | Ok _, Failed e => Failed e
  end.

Fixpoint handle (eng : Engine) {X : Type} (g : Get X) : list Call * Outcome X :=
  match g in Get X return list Call * Outcome X with
  | Get_VenvPex r => ([PexCall r], venv_pex eng r)
  | Get_SourceFiles r => ([SourceFilesCall r], source_files eng r)
  | Get_ConfigFiles r => ([ConfigFilesCall r], Ok (config_files eng r))
  | Get_Digest r => ([MergeCall r], merge_digests eng r)
  | Get_Process r => ([BuildProcessCall r], Ok (venv_pex_process eng r))
  | Get_ProcessResult p =>
      ([ExecuteCall p],
       match execute eng p with
       | Ok r => fallible_to_exec_result_or_raise r
       | Failed e => Failed e
       end)
  | Get_FallibleProcessResult r =>
      let p := venv_pex_process eng r in
      ([BuildProcessCall r; ExecuteCall p], execute eng p)
  | Get_Snapshot d => ([SnapshotCall d], Ok (snapshot_of_digest eng d))
  | MultiGet a b =>
      let ra := handle eng a in
      let rb := handle eng b in
      (fst ra ++ fst rb, join2 (snd ra) (snd rb))
  end.

Fixpoint run (eng : Engine) {A : Type} (m : Rule A) : list Call * Outcome A :=
  match m with
  | Return a => ([], Ok a)
  | Raise e => ([], Failed e)
  | Await g k =>
      let r := handle eng g in
      match snd r with
      | Ok x => let r' := run eng (k x) in (fst r ++ fst r', snd r')
      | Failed e => (fst r, Failed e)
      end
  end.

(** Observations on a trace. *)

Definition is_execute (c : Call) : bool :=
  match c with ExecuteCall _ => true | _ => false end.

Definition process_executions (t : list Call) : nat :=
  length (filter (fun c => is_execute c = true) t).

Definition pex_requests (t : list Call) : list PexRequest :=
  omap (fun c => match c with PexCall r => Some r | _ => None end) t.

Definition config_requests (t : list Call) : list ConfigFilesRequest :=
  omap (fun c => match c with ConfigFilesCall r => Some r | _ => None end) t.

Definition merge_requests (t : list Call) : list MergeDigests :=
  omap (fun c => match c with MergeCall r => Some r | _ => None end) t.

Definition process_specs (t : list Call) : list VenvPexProcess :=
  omap (fun c => match c with BuildProcessCall r => Some r | _ => None end) t.

Definition executed_processes (t : list Call) : list Process :=
  omap (fun c => match c with ExecuteCall p => Some p | _ => None end) t.

(** ** Values shared by the formatter plugins *)

(** [pants.core.goals.fmt.FmtRequest]: the field sets and the result of the
    formatter that ran before this one, if any. *)
Record FmtRequest (FS : Type) := mkFmtRequest {
  field_sets : list FS;
  prior_formatter_result : option Snapshot }.

Arguments mkFmtRequest {FS} _ _.
Arguments field_sets {FS} _.
Arguments prior_formatter_result {FS} _.

Definition EMPTY_DIGEST : Digest :=
  mkDigest "e3b0c44298fc1c149afbf4c8996fb92427ae41e4649b934ca495991b7852b855" 0.

Definition EMPTY_SNAPSHOT : Snapshot := mkSnapshot EMPTY_DIGEST [] [].

(** Modelled from the spec: [Snapshot.__eq__] (the native engine, not among
    the sources).  A snapshot is content-addressed and "two snapshots are equal
    iff their content sets are equal": the digests are compared. *)
Definition Digest_eqb (a b : Digest) : bool :=
  String.eqb (fingerprint a) (fingerprint b)
  && Z.eqb (serialized_bytes_length a) (serialized_bytes_length b).

Definition Snapshot_eqb (a b : Snapshot) : bool :=
  Digest_eqb (digest a) (digest b).

(** [pants.core.goals.fmt.FmtResult], built by the rules as [FmtResult(input,
    output, stdout=..., stderr=..., formatter_name=...)]: the snapshot before
    and the snapshot after, the two streams as text and the plugin's name.
    The rules pass no flag. *)
Module FmtResult.
Record t := mk {
  original : Snapshot;
  final : Snapshot;
  stdout : string;
  stderr : string;
  formatter_name : string }.

(** Modelled from the spec: [FmtResult.skip] ([pants.core.goals.fmt], not
    among the sources) builds the result of a skipped plugin from its name
    alone: "if skipped=true, original==final and streams are empty". *)
Definition skip (formatter_name : string) : t :=
  mk EMPTY_SNAPSHOT EMPTY_SNAPSHOT "" "" formatter_name.

(** Modelled from the spec: the [skipped] property of [FmtResult]
    ([pants.core.goals.fmt], not among the sources).  No flag is stored: a
    result is skipped when it looks like the one [skip] builds, "original ==
    final and streams are empty", both snapshots being the empty snapshot. *)
Definition skipped (r : t) : bool :=
  Snapshot_eqb (original r) EMPTY_SNAPSHOT
  && Snapshot_eqb (final r) EMPTY_SNAPSHOT
  && String.eqb (stdout r) ""
  && String.eqb (stderr r) "".
End FmtResult.

(** The helpers the rules import from modules that are not among the sources:
    [PythonSetup] and [InterpreterConstraints] of the Python backend,
    [pluralize] of [pants.util.strutil], [bytes.decode] (which raises on a
    byte sequence that is not text) and the substitution that
    [strip_v2_chroot_path] applies to the decoded text. *)
Class Imports := {
  PythonSetup : Type;
  interpreter_universe : PythonSetup -> list string;
  create_from_compatibility_fields :
    list InterpreterConstraintsField -> PythonSetup -> InterpreterConstraints;
  requires_python38_or_newer : InterpreterConstraints -> list string -> bool;
  pluralize : nat -> string -> string;
  decode : bytes -> option string;
  strip_chroot : string -> string }.

(** [b.decode()] as a rule step. *)
Definition bytes_decode `{Imports} (b : bytes) : Rule string :=
  match decode b with
  | Some s => Return s
  | None => Raise UnicodeDecodeError
  end.

(** Modelled from the spec: [strip_v2_chroot_path] ([pants.util.strutil], not
    among the sources) "normalizes captured byte streams to text, strips any
    sandbox-internal path prefixes from diagnostic output". *)
Definition strip_v2_chroot_path `{Imports} (v : bytes) : Rule string :=
  (s <- call bytes_decode v ;; Return (strip_chroot s))%rule.

(** Python's truth value of an [Optional[str]]. *)
Definition truthy (s : option string) : bool :=
  match s with
  | Some s => negb (String.eqb s "")
  | None => false
  end.

(** ** The Black subsystem and [black/rules.py] *)

(** What the rules read from the [Black] subsystem ([black/subsystem.py] is
    not among the sources): the options [skip], [args], [config] and
    [interpreter_constraints], the scope name, and [options.is_default]. *)
Module Black.
Record t := mk {
  options_scope : string;
  skip : bool;
  args : list string;
  config : option string;
  interpreter_constraints : InterpreterConstraints;
  options_is_default : string -> bool }.

(** Modelled from the spec: [black.to_pex_request(interpreter_constraints=ic)]
    asks for the tool named by the subsystem under the constraint [ic]. *)
Definition to_pex_request (b : t) (ic : option InterpreterConstraints) : PexRequest :=
  mkPexRequest (options_scope b) ic.

(** Modelled from the spec: [black.config_request(dirs)] asks for the
    configuration of the tool in the directories [dirs]. *)
Definition config_request (b : t) (ds : list string) : ConfigFilesRequest :=
  mkConfigFilesRequest (options_scope b) (config b) ds.
End Black.

Module black_rules.

Record BlackFieldSet := mkBlackFieldSet {
  source : PythonSourceField;
  interpreter_constraints : InterpreterConstraintsField }.

Definition BlackRequest := FmtRequest BlackFieldSet.

(** [BlackRequest.name = Black.options_scope] *)
Definition name (black : Black.t) : string := Black.options_scope black.

Record Setup := mkSetup {
  process : Process;
  original_snapshot : Snapshot }.

Section rules.
Context `{Imports}.

(** Lines 57-70 of [setup_black]. *)
Definition tool_interpreter_constraints
  (request : BlackRequest) (black : Black.t) (python_setup : PythonSetup)
  : InterpreterConstraints :=
  let all_interpreter_constraints :=
    create_from_compatibility_fields
      (map interpreter_constraints (field_sets request)) python_setup in
  if Black.options_is_default black "interpreter_constraints"
     && requires_python38_or_newer all_interpreter_constraints
          (interpreter_universe python_setup)
  then all_interpreter_constraints
  else Black.interpreter_constraints black.

(** Lines 84-88: the prior formatter's result supersedes the fresh read. *)
Definition source_files_snapshot (request : BlackRequest) (sf : SourceFiles) : Snapshot :=
  match prior_formatter_result request with
  | None => snapshot sf
  | Some prior => prior
  end.

(** Lines 99-113: the [VenvPexProcess] handed to the engine. *)
Definition black_process
  (request : BlackRequest) (black : Black.t) (black_pex : VenvPex)
  (sfs : Snapshot) (input_digest : Digest) : VenvPexProcess :=
  {| vp_pex := black_pex;
     vp_argv :=
       (if truthy (Black.config black)
        then ["--config"; default "" (Black.config black)]
        else [])
       ++ ["-W"; "{pants_concurrency}"]
       ++ Black.args black
       ++ files sfs;
     vp_input_digest := input_digest;
     vp_output_files := files sfs;
     vp_concurrency_available := Some (length (field_sets request));
     vp_description :=
       "Run Black on " +:+ pluralize (length (field_sets request)) "file" +:+ ".";
     vp_level := DEBUG |}.

(** [setup_black(request, black, python_setup)]. *)
Definition setup_black
  (request : BlackRequest) (black : Black.t) (python_setup : PythonSetup)
  : Rule Setup :=
  (let black_pex_get :=
     Get_VenvPex
       (Black.to_pex_request black
          (Some (tool_interpreter_constraints request black python_setup))) in
   let source_files_get :=
     Get_SourceFiles (map source (field_sets request)) in
   both <- await MultiGet source_files_get black_pex_get ;;
   let source_files := fst both in
   let black_pex := snd both in
   let sfs := source_files_snapshot request source_files in
   config_files <- await Get_ConfigFiles (Black.config_request black (dirs sfs)) ;;
   input_digest <- await Get_Digest [digest sfs; digest (config_snapshot config_files)] ;;
   process <- await Get_Process (black_process request black black_pex sfs input_digest) ;;
   Return (mkSetup process sfs))%rule.

(** [black_fmt(request, black)].  [Get(Setup, BlackRequest, request)] runs
    the rule [setup_black], whose other two parameters are the subsystems the
    engine holds; [python_setup] is passed along for that. *)
Definition black_fmt
  (request : BlackRequest) (black : Black.t) (python_setup : PythonSetup)
  : Rule FmtResult.t :=
  (if Black.skip black then Return (FmtResult.skip (name black))
   else
     setup <- call setup_black request black python_setup ;;
     result <- await Get_ProcessResult (process setup) ;;
     output_snapshot <- await Get_Snapshot (ProcessResult.output_digest result) ;;
     stdout <- call strip_v2_chroot_path (ProcessResult.stdout result) ;;
     stderr <- call strip_v2_chroot_path (ProcessResult.stderr result) ;;
     Return (FmtResult.mk (original_snapshot setup) output_snapshot
               stdout stderr (name black)))%rule.

End rules.
End black_rules.

(** ** The pyupgrade subsystem and [pyupgrade/rules.py] *)

(** What the rules read from the [PyUpgrade] subsystem
    ([pyupgrade/subsystem.py] is not among the sources). *)
Module PyUpgrade.
Record t := mk {
  options_scope : string;
  skip : bool;
  args : list string }.

(** Modelled from the spec: [pyupgrade.to_pex_request()] asks for the tool
    named by the subsystem, no constraint passed. *)
Definition to_pex_request (p : t) : PexRequest :=
  mkPexRequest (options_scope p) None.
End PyUpgrade.

Module pyupgrade_rules.

Record PyUpgradeFieldSet := mkPyUpgradeFieldSet {
  source : PythonSourceField }.

Definition PyUpgradeRequest := FmtRequest PyUpgradeFieldSet.

(** [PyUpgradeRequest.name = PyUpgrade.options_scope] *)
Definition name (pyupgrade : PyUpgrade.t) : string := PyUpgrade.options_scope pyupgrade.

Record PyUpgradeResult := mkPyUpgradeResult {
  process_result : FallibleProcessResult.t;
  original_snapshot : Snapshot }.

Section rules.
Context `{Imports}.

(** Lines 56-60. *)
Definition source_files_snapshot (request : PyUpgradeRequest) (sf : SourceFiles) : Snapshot :=
  match prior_formatter_result request with
  | None => snapshot sf
  | Some prior => prior
  end.

(** Lines 64-71: the [VenvPexProcess] handed to the engine.  The paths on the
    command line are [source_files.files]; the declared outputs are
    [source_files_snapshot.files]. *)
Definition pyupgrade_process
  (request : PyUpgradeRequest) (pyupgrade : PyUpgrade.t) (pyupgrade_pex : VenvPex)
  (source_files : SourceFiles) (sfs : Snapshot) : VenvPexProcess :=
  {| vp_pex := pyupgrade_pex;
     vp_argv := PyUpgrade.args pyupgrade ++ SourceFiles_files source_files;
     vp_input_digest := digest sfs;
     vp_output_files := files sfs;
     vp_concurrency_available := None;
     vp_description :=
       "Run pyupgrade on " +:+ pluralize (length (field_sets request)) "file" +:+ ".";
     vp_level := DEBUG |}.

Definition run_pyupgrade (request : PyUpgradeRequest) (pyupgrade : PyUpgrade.t)
  : Rule PyUpgradeResult :=
  (let pyupgrade_pex_get := Get_VenvPex (PyUpgrade.to_pex_request pyupgrade) in
   let source_files_get :=
     Get_SourceFiles (map source (field_sets request)) in
   both <- await MultiGet source_files_get pyupgrade_pex_get ;;
   let source_files := fst both in
   let pyupgrade_pex := snd both in
   let sfs := source_files_snapshot request source_files in
   result <- await Get_FallibleProcessResult
               (pyupgrade_process request pyupgrade pyupgrade_pex source_files sfs) ;;
   Return (mkPyUpgradeResult result sfs))%rule.

Definition pyupgrade_fmt (result : PyUpgradeResult) (pyupgrade : PyUpgrade.t)
  : Rule FmtResult.t :=
  (if PyUpgrade.skip pyupgrade then Return (FmtResult.skip (name pyupgrade))
   else
     output_snapshot <- await Get_Snapshot
                          (FallibleProcessResult.output_digest (process_result result)) ;;
     stdout <- call bytes_decode (FallibleProcessResult.stdout (process_result result)) ;;
     stderr <- call bytes_decode (FallibleProcessResult.stderr (process_result result)) ;;
     Return (FmtResult.mk (original_snapshot result) output_snapshot
               stdout stderr (name pyupgrade)))%rule.

(** [UnionRule(FmtRequest, PyUpgradeRequest)]: the engine answers
    [Get(FmtResult, FmtRequest, request)] for a [PyUpgradeRequest] with the
    rule that returns a [FmtResult], [pyupgrade_fmt].  Its parameter
    [result: PyUpgradeResult] is a rule parameter: the engine computes it from
    the request with the one rule that returns a [PyUpgradeResult],
    [run_pyupgrade], and only then enters the body of [pyupgrade_fmt]. *)
Definition fmt (request : PyUpgradeRequest) (pyupgrade : PyUpgrade.t)
  : Rule FmtResult.t :=
  (result <- call run_pyupgrade request pyupgrade ;;
   pyupgrade_fmt result pyupgrade)%rule.

End rules.
End pyupgrade_rules.

(** ** A chain of formatter stages *)

(** A registered plugin with the field sets it selected and its subsystem. *)
Inductive Stage `{Imports} :=
| BlackStage (fs : list black_rules.BlackFieldSet) (black : Black.t)
    (python_setup : PythonSetup)
| PyUpgradeStage (fs : list pyupgrade_rules.PyUpgradeFieldSet)
    (pyupgrade : PyUpgrade.t).

Definition stage_skip `{Imports} (s : Stage) : bool :=
  match s with
  | BlackStage _ black _ => Black.skip black
  | PyUpgradeStage _ pyupgrade => PyUpgrade.skip pyupgrade
  end.

Definition stage_sources `{Imports} (s : Stage) : SourceFilesRequest :=
  match s with
  | BlackStage fs _ _ => map black_rules.source fs
  | PyUpgradeStage fs _ => map pyupgrade_rules.source fs
  end.

(** [Get(FmtResult, FmtRequest, request)] for the request of a stage. *)
Definition run_stage `{Imports} (s : Stage) (prior : option Snapshot) : Rule FmtResult.t :=
  match s with
  | BlackStage fs black python_setup =>
      black_rules.black_fmt (mkFmtRequest fs prior) black python_setup
  | PyUpgradeStage fs pyupgrade =>
      pyupgrade_rules.fmt (mkFmtRequest fs prior) pyupgrade
  end.

(** Modelled from the spec: the chain driver ([pants.core.goals.fmt]) is not
    among the sources.  "When this plugin is not the last in the configured
    sequence, its output Snapshot becomes the prior result snapshot of the
    next plugin's FormatRequest"; the prior result is "non-null only when
    this plugin is not first in a chain". *)
Definition fmt_chain2 `{Imports} (A B : Stage) : Rule (FmtResult.t * FmtResult.t) :=
  (rA <- call run_stage A None ;;
   rB <- call run_stage B (Some (FmtResult.final rA)) ;;
   Return (rA, rB))%rule.

(** ** [engine/internals/options_parsing.py] *)

Module options_parsing.

(** The types this module imports: [OptionsBootstrapper] and
    [BuildConfiguration] "have useful eq", [Options] does not. *)
Class World := {
  OptionsBootstrapper : Type;
  BuildConfiguration : Type;
  Options : Type;
  OptionsBootstrapper_eq : OptionsBootstrapper -> OptionsBootstrapper -> bool;
  BuildConfiguration_eq : BuildConfiguration -> BuildConfiguration -> bool }.

Section defs.
Context `{World}.

(** [full_options ob bc] is [ob.full_options(bc)]: it raises, or returns a
    value that may be [None]. *)
Definition full_options_t : Type :=
  OptionsBootstrapper -> BuildConfiguration -> Outcome (option Options).

(** The Python heap as far as this module touches it: the next free object
    identity, the cache of the memoized [options] property, one entry per
    instance, and the number of calls of [full_options] made so far. *)
Record Heap := mkHeap {
  next_id : positive;
  memo : gmap positive (option Options);
  full_options_calls : nat }.

Definition empty_heap : Heap := mkHeap 1%positive ∅ 0.

(** A frozen dataclass instance: its identity and its two fields. *)
Record _Options := mk_Options {
  ident : positive;
  options_bootstrapper : OptionsBootstrapper;
  build_config : BuildConfiguration }.

Definition Py (A : Type) : Type := Heap -> Heap * Outcome A.

(** Modelled from the spec: [memoized_property] ([pants.util.memo], not among
    the sources) caches the value per instance: a "one-time computation with
    the result cached as an immutable value".  A read finds the cached value,
    or else runs the body of the property, lines 35-36, and stores what it
    returned. *)
Definition options (full_options : full_options_t) (self : _Options)
  : Py (option Options) :=
  fun h =>
    match memo h !! ident self with
    | Some v => (h, Ok v)
    | None =>
        match full_options (options_bootstrapper self) (build_config self) with
        | Ok v =>
            (mkHeap (next_id h) (<[ident self := v]> (memo h))
               (S (full_options_calls h)), Ok v)
        | Failed e =>
            (mkHeap (next_id h) (memo h) (S (full_options_calls h)), Failed e)
        end
    end.

(** Lines 29-32: [assert self.options is not None]. *)
Definition __post_init__ (full_options : full_options_t) (self : _Options) : Py unit :=
  fun h =>
    match options full_options self h with
    | (h', Ok (Some _)) => (h', Ok tt)
    | (h', Ok None) => (h', Failed AssertionError)
    | (h', Failed e) => (h', Failed e)
    end.

(** [_Options(options_bootstrapper, build_config)]: a fresh instance, then
    [__post_init__]. *)
Definition new_Options (full_options : full_options_t)
  (ob : OptionsBootstrapper) (bc : BuildConfiguration) : Py _Options :=
  fun h =>
    let self := mk_Options (next_id h) ob bc in
    let h1 := mkHeap (Pos.succ (next_id h)) (memo h) (full_options_calls h) in
    match __post_init__ full_options self h1 with
    | (h2, Ok _) => (h2, Ok self)
    | (h2, Failed e) => (h2, Failed e)
    end.

(** The [__eq__] that [@dataclass(frozen=True)] generates: the tuples of the
    declared fields are compared. *)
Definition _Options_eq (a b : _Options) : bool :=
  OptionsBootstrapper_eq (options_bootstrapper a) (options_bootstrapper b)
  && BuildConfiguration_eq (build_config a) (build_config b).

(** [SessionValues], read at the key [OptionsBootstrapper]. *)
Record SessionValues := mkSessionValues {
  session_OptionsBootstrapper : option OptionsBootstrapper }.

Definition parse_options (full_options : full_options_t)
  (build_config : BuildConfiguration) (session_values : SessionValues)
  : Py _Options :=
  fun h =>
    match session_OptionsBootstrapper session_values with
    | Some options_bootstrapper =>
        new_Options full_options options_bootstrapper build_config h
    | None => (h, Failed KeyError)
    end.

(** What the program does with [_Options] values after a construction. *)
Inductive Op :=
| OpNew (ob : OptionsBootstrapper) (bc : BuildConfiguration)
| OpRead (o : _Options).

Definition step (full_options : full_options_t) (h : Heap) (op : Op) : Heap :=
  match op with
  | OpNew ob bc => fst (new_Options full_options ob bc h)
  | OpRead o => fst (options full_options o h)
  end.

Definition steps (full_options : full_options_t) (ops : list Op) (h : Heap) : Heap :=
  fold_left (step full_options) ops h.

(** No cache entry at an identity that is not allocated yet. *)
Definition heap_wf (h : Heap) : Prop :=
  forall i, (next_id h <= i)%positive -> memo h !! i = None.

End defs.
End options_parsing.

(** ** A concrete engine and concrete helpers, for closed examples *)

Module examples.

(** Text that is ASCII decodes; anything else raises. *)
Definition decode_ascii (b : bytes) : option string :=
  if forallb (fun c => (Byte.to_N c <? 128)%N) b
  then Some (string_of_list_byte b)
  else None.

Definition is_alnum (c : ascii) : bool :=
  let n := nat_of_ascii c in
  (Nat.leb 48 n && Nat.leb n 57) || (Nat.leb 65 n && Nat.leb n 90)
  || (Nat.leb 97 n && Nat.leb n 122).

Fixpoint strip_literal (p s : list ascii) : option (list ascii) :=
  match p, s with
  | [], _ => Some s
  | a :: p', b :: s' => if Ascii.eqb a b then strip_literal p' s' else None
  | _ :: _, [] => None
  end.

Fixpoint span_alnum (s : list ascii) : nat * list ascii :=
  match s with
  | c :: s' =>
      if is_alnum c then let r := span_alnum s' in (S (fst r), snd r) else (0, s)
  | [] => (0, [])
  end.

Definition slash : ascii := "/"%char.
Definition newline : ascii := ascii_of_nat 10.

(** [/process-execution[a-zA-Z0-9]+/] at the head of [s]: what follows it. *)
Definition match_sandbox_dir (s : list ascii) : option (list ascii) :=
  match strip_literal (list_ascii_of_string "/process-execution") s with
  | Some r =>
      match span_alnum r with
      | (S _, c :: r') => if Ascii.eqb c slash then Some r' else None
      | _ => None
      end
  | None => None
  end.

(** [.*/process-execution[a-zA-Z0-9]+/] at the head of [s], the longest [.*]
    first; [.] is any character but a newline. *)
Fixpoint match_chroot_tail (s : list ascii) : option (list ascii) :=
  match s with
  | [] => None
  | c :: s' =>
      match (if Ascii.eqb c newline then None else match_chroot_tail s') with
      | Some r => Some r
      | None => match_sandbox_dir s
      end
  end.

(** [re.sub(r"/.*/process-execution[a-zA-Z0-9]+/", "", v)], left to right. *)
Fixpoint sub_chroot (fuel : nat) (s : list ascii) : list ascii :=
  match fuel with
  | 0 => s
  | S fuel' =>
      match s with
      | [] => []
      | c :: s' =>
          if Ascii.eqb c slash
          then match match_chroot_tail s' with
               | Some r => sub_chroot fuel' r
               | None => c :: sub_chroot fuel' s'
               end
          else c :: sub_chroot fuel' s'
      end
  end.

Definition strip_chroot_regex (s : string) : string :=
  string_of_list_ascii
    (sub_chroot (String.length s) (list_ascii_of_string s)).

(** Constraints as requirement strings; a set of fields is the conjunction of
    what the fields declare, and it needs 3.8 when one of them says so. *)
Definition conjunction (fields : list InterpreterConstraintsField) (_ : list string)
  : InterpreterConstraints :=
  concat (map (fun f => match f with Some l => l | None => [] end) fields).

Definition mentions_38 (ic : InterpreterConstraints) (_ : list string) : bool :=
  existsb (String.eqb ">=3.8") ic.

Definition pluralize_en (n : nat) (item : string) : string :=
  pretty n +:+ " " +:+ item +:+ (if Nat.eqb n 1 then "" else "s").

Definition imports : Imports :=
  {| PythonSetup := list string;
     interpreter_universe := fun u => u;
     create_from_compatibility_fields := conjunction;
     requires_python38_or_newer := mentions_38;
     pluralize := pluralize_en;
     decode := decode_ascii;
     strip_chroot := strip_chroot_regex |}.

Definition text (s : string) : bytes := list_byte_of_string s.

(** The file set [{"f.py"}] with content [x=1], and the same file as a
    formatter leaves it, [x = 1]. *)
Definition d_raw : Digest := mkDigest "sha256(x=1)" 3.
Definition d_fmt : Digest := mkDigest "sha256(x = 1)" 5.
Definition s_raw : Snapshot := mkSnapshot d_raw ["f.py"] [""].
Definition s_fmt : Snapshot := mkSnapshot d_fmt ["f.py"] [""].

Definition merged (ds : MergeDigests) : Digest :=
  mkDigest (String.concat "+" (map fingerprint ds))
    (fold_right Z.add 0%Z (map serialized_bytes_length ds)).

(** An engine whose store holds [f.py] and no configuration file, and whose
    sandbox answers with [exec]. *)
Definition engine (exec : Process -> Outcome FallibleProcessResult.t) : Engine :=
  {| venv_pex := fun r => Ok (mkVenvPex (pex_tool r +:+ ".pex"));
     source_files := fun _ => Ok (mkSourceFiles s_raw);
     config_files := fun _ => mkConfigFiles EMPTY_SNAPSHOT;
     merge_digests := fun ds => Ok (merged ds);
     venv_pex_process := fun vp =>
       mkProcess (venv_pex_handle (vp_pex vp) :: vp_argv vp)
         (vp_input_digest vp) (vp_output_files vp) (vp_description vp);
     execute := exec;
     snapshot_of_digest := fun d => mkSnapshot d ["f.py"] [""] |}.

(** Every tool rewrites [f.py] to [x = 1], prints [out] and exits with
    [code]. *)
Definition rewrites (out : string) (code : Z) (_ : Process)
  : Outcome FallibleProcessResult.t :=
  Ok (FallibleProcessResult.mk (text out) (text "") code d_fmt).

Definition black (skip : bool) (is_default : bool) : Black.t :=
  Black.mk "black" skip [] None [">=3.6"] (fun _ => is_default).

Definition pyupgrade (skip : bool) : PyUpgrade.t :=
  PyUpgrade.mk "pyupgrade" skip ["--py36-plus"].

Definition black_fs : list black_rules.BlackFieldSet :=
  [black_rules.mkBlackFieldSet "f.py" (Some [">=3.6"])].

Definition black_fs38 : list black_rules.BlackFieldSet :=
  [black_rules.mkBlackFieldSet "a.py" (Some [">=3.8"]);
   black_rules.mkBlackFieldSet "b.py" (Some [">=3.6"])].

Definition pyupgrade_fs : list pyupgrade_rules.PyUpgradeFieldSet :=
  [pyupgrade_rules.mkPyUpgradeFieldSet "f.py"].

(** Bootstrappers and build configurations named by strings, compared as
    strings; the options are the list of what was bootstrapped. *)
Definition world : options_parsing.World :=
  {| options_parsing.OptionsBootstrapper := string;
     options_parsing.BuildConfiguration := string;
     options_parsing.Options := list string;
     options_parsing.OptionsBootstrapper_eq := String.eqb;
     options_parsing.BuildConfiguration_eq := String.eqb |}.

Definition full_options_of_args : @options_parsing.full_options_t world :=
  fun ob bc => Ok (Some [ob; bc]).

Definition full_options_of_env (env : string) : @options_parsing.full_options_t world :=
  fun ob bc => Ok (Some [ob; bc; env]).

End examples.

(** ** [scope_options] of [options_parsing.py] *)

Module options_scoping.
Import options_parsing.

Section defs.
Context `{World}.

(** What [for_scope] returns: the option values of one scope. *)
Variable OptionValueContainer : Type.

(** [pants.option.scope.Scope]: the rule reads [scope.scope]. *)
Record Scope := mkScope { scope : string }.

(** [ScopedOptions(scope, options)]. *)
Record ScopedOptions := mkScopedOptions {
  scoped_scope : Scope;
  scoped_options : OptionValueContainer }.

(** Lines 47-49: [ScopedOptions(scope, options.options.for_scope(scope.scope))].
    [for_scope v s] is the method call [v.for_scope(s)] on whatever the
    [options] property returned; [Options] is not among the sources, so the
    call is a parameter, and it may raise. *)
Definition scope_options (full_options : full_options_t)
  (for_scope : option Options -> string -> Outcome OptionValueContainer)
  (sc : Scope) (opts : _Options) : Py ScopedOptions :=
  fun h =>
    match options full_options opts h with
    | (h', Ok v) =>
        match for_scope v (scope sc) with
        | Ok c => (h', Ok (mkScopedOptions sc c))
        | Failed e => (h', Failed e)
        end
    | (h', Failed e) => (h', Failed e)
    end.

(** The heaps a program reaches: it starts with the empty heap, constructs
    [_Options] values and reads [options] of instances that exist. *)
Inductive reachable (full_options : full_options_t) : Heap -> Prop :=
| reach_empty : reachable full_options empty_heap
| reach_new h ob bc :
    reachable full_options h ->
    reachable full_options (fst (new_Options full_options ob bc h))
| reach_read h o :
    reachable full_options h ->
    (ident o < next_id h)%positive ->
    reachable full_options (fst (options full_options o h)).

End defs.
End options_scoping.

(** ** Engines that differ in one collaborator *)

Definition with_source_files (eng : Engine)
  (f : SourceFilesRequest -> Outcome SourceFiles) : Engine :=
  mkEngine (venv_pex eng) f (config_files eng) (merge_digests eng)
    (venv_pex_process eng) (execute eng) (snapshot_of_digest eng).

Definition with_venv_pex (eng : Engine)
  (f : PexRequest -> Outcome VenvPex) : Engine :=
  mkEngine f (source_files eng) (config_files eng) (merge_digests eng)
    (venv_pex_process eng) (execute eng) (snapshot_of_digest eng).

Definition with_merge_digests (eng : Engine)
  (f : MergeDigests -> Outcome Digest) : Engine :=
  mkEngine (venv_pex eng) (source_files eng) (config_files eng) f
    (venv_pex_process eng) (execute eng) (snapshot_of_digest eng).

(** * Properties *)

(** ** Running a rule *)

Lemma run_bind {A B : Type} (eng : Engine) (m : Rule A) (f : A -> Rule B) :
  run eng (bind m f) =
  match snd (run eng m) with
  | Ok a => (fst (run eng m) ++ fst (run eng (f a)), snd (run eng (f a)))
  | Failed e => (fst (run eng m), Failed e)
  end.
Proof.
  induction m as [a | e | X g k IH]; simpl.
  - destruct (run eng (f a)); reflexivity.
  - reflexivity.
  - destruct (snd (handle eng g)) as [x | e]; simpl; [| reflexivity].
    rewrite IH. destruct (snd (run eng (k x))); simpl; [| reflexivity].
    now rewrite app_assoc.
Qed.

Lemma run_bind_ok {A B : Type} (eng : Engine) (m : Rule A) (f : A -> Rule B) t b :
  run eng (bind m f) = (t, Ok b) ->
  exists t1 a t2,
    run eng m = (t1, Ok a) /\ run eng (f a) = (t2, Ok b) /\ t = t1 ++ t2.
Proof.
  rewrite run_bind. destruct (run eng m) as [t1 [a | e]]; simpl; [| discriminate].
  destruct (run eng (f a)) as [t2 o] eqn:E; simpl. intros [= <- ->].
  now exists t1, a, t2.
Qed.

Section black_facts.
Context `{Imports}.
Import black_rules.

Variable eng : Engine.
Variable request : BlackRequest.
Variable black : Black.t.
Variable python_setup : PythonSetup.

Let srcs : SourceFilesRequest := map source (field_sets request).
Let preq : PexRequest :=
  Black.to_pex_request black
    (Some (tool_interpreter_constraints request black python_setup)).

(** [setup_black], request by request. *)
Lemma run_setup_black :
  run eng (setup_black request black python_setup) =
  match join2 (source_files eng srcs) (venv_pex eng preq) with
  | Ok (sf, pex) =>
      let sfs := source_files_snapshot request sf in
      let creq := Black.config_request black (dirs sfs) in
      let mreq := [digest sfs; digest (config_snapshot (config_files eng creq))] in
      match merge_digests eng mreq with
      | Ok d =>
          let vp := black_process request black pex sfs d in
          ([SourceFilesCall srcs; PexCall preq; ConfigFilesCall creq;
            MergeCall mreq; BuildProcessCall vp],
           Ok (mkSetup (venv_pex_process eng vp) sfs))
      | Failed e =>
          ([SourceFilesCall srcs; PexCall preq; ConfigFilesCall creq;
            MergeCall mreq], Failed e)
      end
  | Failed e => ([SourceFilesCall srcs; PexCall preq], Failed e)
  end.
Proof.
  unfold setup_black; simpl. fold srcs preq.
  destruct (source_files eng srcs) as [sf | e], (venv_pex eng preq) as [pex | e'];
    simpl; try reflexivity.
  destruct (merge_digests eng _); reflexivity.
Qed.

(** [black_fmt], outcome by outcome. *)
Lemma run_black_fmt :
  run eng (black_fmt request black python_setup) =
  if Black.skip black then ([], Ok (FmtResult.skip (name black)))
  else
    match run eng (setup_black request black python_setup) with
    | (t0, Failed e) => (t0, Failed e)
    | (t0, Ok setup) =>
        let p := process setup in
        match execute eng p with
        | Failed e => (t0 ++ [ExecuteCall p], Failed e)
        | Ok res =>
            if (FallibleProcessResult.exit_code res =? 0)%Z then
              let calls :=
                t0 ++ [ExecuteCall p;
                       SnapshotCall (FallibleProcessResult.output_digest res)] in
              match decode (FallibleProcessResult.stdout res),
                    decode (FallibleProcessResult.stderr res) with
              | Some out, Some err =>
                  (calls,
                   Ok (FmtResult.mk (original_snapshot setup)
                         (snapshot_of_digest eng
                            (FallibleProcessResult.output_digest res))
                         (strip_chroot out) (strip_chroot err) (name black)))
              | _, _ => (calls, Failed UnicodeDecodeError)
              end
            else
              (t0 ++ [ExecuteCall p],
               Failed (ProcessExecutionFailure
                         (FallibleProcessResult.exit_code res)
                         (FallibleProcessResult.stdout res)
                         (FallibleProcessResult.stderr res)))
        end
    end.
Proof.
  unfold black_fmt. destruct (Black.skip black); [reflexivity |].
  rewrite run_bind.
  destruct (run eng (setup_black request black python_setup)) as [t0 [setup | e]];
    simpl; [| reflexivity].
  destruct (execute eng (process setup)) as [res | e]; simpl; [| reflexivity].
  unfold fallible_to_exec_result_or_raise.
  destruct (FallibleProcessResult.exit_code res =? 0)%Z; simpl; [| reflexivity].
  unfold strip_v2_chroot_path, bytes_decode; simpl.
  destruct (decode (FallibleProcessResult.stdout res)) as [out |]; simpl;
    [| reflexivity].
  destruct (decode (FallibleProcessResult.stderr res)) as [err |]; simpl;
    reflexivity.
Qed.

(** A Black stage that returned a result: every request was answered, the
    tool exited with status 0, and both streams decoded. *)
Lemma black_fmt_ok t r :
  Black.skip black = false ->
  run eng (black_fmt request black python_setup) = (t, Ok r) ->
  exists sf pex d res out err,
    let sfs := source_files_snapshot request sf in
    let creq := Black.config_request black (dirs sfs) in
    let mreq := [digest sfs; digest (config_snapshot (config_files eng creq))] in
    let vp := black_process request black pex sfs d in
    let p := venv_pex_process eng vp in
    source_files eng srcs = Ok sf
    /\ venv_pex eng preq = Ok pex
    /\ merge_digests eng mreq = Ok d
    /\ execute eng p = Ok res
    /\ FallibleProcessResult.exit_code res = 0%Z
    /\ decode (FallibleProcessResult.stdout res) = Some out
    /\ decode (FallibleProcessResult.stderr res) = Some err
    /\ t = [SourceFilesCall srcs; PexCall preq; ConfigFilesCall creq;
            MergeCall mreq; BuildProcessCall vp; ExecuteCall p;
            SnapshotCall (FallibleProcessResult.output_digest res)]
    /\ r = FmtResult.mk sfs
             (snapshot_of_digest eng (FallibleProcessResult.output_digest res))
             (strip_chroot out) (strip_chroot err) (name black).
Proof.
  intros Hs. rewrite run_black_fmt, Hs, run_setup_black.
  destruct (source_files eng srcs) as [sf | e]; [| discriminate].
  destruct (venv_pex eng preq) as [pex | e]; [| discriminate]. simpl.
  destruct (merge_digests eng _) as [d | e] eqn:Hm; [| discriminate]. simpl.
  destruct (execute eng _) as [res | e] eqn:He; [| discriminate].
  destruct (FallibleProcessResult.exit_code res =? 0)%Z eqn:Hc; [| discriminate].
  destruct (decode (FallibleProcessResult.stdout res)) as [out |] eqn:Ho;
    [| discriminate].
  destruct (decode (FallibleProcessResult.stderr res)) as [err |] eqn:Hr;
    [| discriminate].
  intros [= <- <-]. exists sf, pex, d, res, out, err. simpl.
  apply Z.eqb_eq in Hc. repeat split; assumption.
Qed.

End black_facts.

Section pyupgrade_facts.
Context `{Imports}.
Import pyupgrade_rules.

Variable eng : Engine.
Variable request : PyUpgradeRequest.
Variable pyupgrade : PyUpgrade.t.

Let srcs : SourceFilesRequest := map source (field_sets request).
Let preq : PexRequest := PyUpgrade.to_pex_request pyupgrade.

(** [run_pyupgrade], request by request. *)
Lemma run_run_pyupgrade :
  run eng (run_pyupgrade request pyupgrade) =
  match join2 (source_files eng srcs) (venv_pex eng preq) with
  | Ok (sf, pex) =>
      let sfs := source_files_snapshot request sf in
      let vp := pyupgrade_process request pyupgrade pex sf sfs in
      let p := venv_pex_process eng vp in
      ([SourceFilesCall srcs; PexCall preq; BuildProcessCall vp; ExecuteCall p],
       match execute eng p with
       | Ok res => Ok (mkPyUpgradeResult res sfs)
       | Failed e => Failed e
       end)
  | Failed e => ([SourceFilesCall srcs; PexCall preq], Failed e)
  end.
Proof.
  unfold run_pyupgrade; simpl. fold srcs preq.
  destruct (source_files eng srcs) as [sf | e], (venv_pex eng preq) as [pex | e'];
    simpl; try reflexivity.
  destruct (execute eng _); reflexivity.
Qed.

(** The body of [pyupgrade_fmt], outcome by outcome. *)
Lemma run_pyupgrade_fmt (result : PyUpgradeResult) :
  run eng (pyupgrade_fmt result pyupgrade) =
  if PyUpgrade.skip pyupgrade then ([], Ok (FmtResult.skip (name pyupgrade)))
  else
    let res := process_result result in
    let calls := [SnapshotCall (FallibleProcessResult.output_digest res)] in
    match decode (FallibleProcessResult.stdout res),
          decode (FallibleProcessResult.stderr res) with
    | Some out, Some err =>
        (calls,
         Ok (FmtResult.mk (original_snapshot result)
               (snapshot_of_digest eng (FallibleProcessResult.output_digest res))
               out err (name pyupgrade)))
    | _, _ => (calls, Failed UnicodeDecodeError)
    end.
Proof.
  unfold pyupgrade_fmt. destruct (PyUpgrade.skip pyupgrade); [reflexivity |].
  unfold bytes_decode; simpl.
  destruct (decode (FallibleProcessResult.stdout (process_result result)));
    simpl; [| reflexivity].
  destruct (decode (FallibleProcessResult.stderr (process_result result)));
    reflexivity.
Qed.

(** The plugin as the engine runs it: [run_pyupgrade], then the body of
    [pyupgrade_fmt]. *)
Lemma run_fmt :
  run eng (fmt request pyupgrade) =
  match run eng (run_pyupgrade request pyupgrade) with
  | (t0, Ok result) =>
      (t0 ++ fst (run eng (pyupgrade_fmt result pyupgrade)),
       snd (run eng (pyupgrade_fmt result pyupgrade)))
  | (t0, Failed e) => (t0, Failed e)
  end.
Proof.
  unfold fmt. rewrite run_bind.
  destruct (run eng (run_pyupgrade request pyupgrade)) as [t0 [result | e]];
    reflexivity.
Qed.

(** A pyupgrade stage that returned a result with the skip flag unset: the
    requests were answered and both streams decoded; nothing is asked of the
    exit status. *)
Lemma fmt_ok t r :
  PyUpgrade.skip pyupgrade = false ->
  run eng (fmt request pyupgrade) = (t, Ok r) ->
  exists sf pex res out err,
    let sfs := source_files_snapshot request sf in
    let vp := pyupgrade_process request pyupgrade pex sf sfs in
    let p := venv_pex_process eng vp in
    source_files eng srcs = Ok sf
    /\ venv_pex eng preq = Ok pex
    /\ execute eng p = Ok res
    /\ decode (FallibleProcessResult.stdout res) = Some out
    /\ decode (FallibleProcessResult.stderr res) = Some err
    /\ t = [SourceFilesCall srcs; PexCall preq; BuildProcessCall vp; ExecuteCall p;
            SnapshotCall (FallibleProcessResult.output_digest res)]
    /\ r = FmtResult.mk sfs
             (snapshot_of_digest eng (FallibleProcessResult.output_digest res))
             out err (name pyupgrade).
Proof.
  intros Hs. rewrite run_fmt, run_run_pyupgrade.
  destruct (source_files eng srcs) as [sf | e]; [| discriminate].
  destruct (venv_pex eng preq) as [pex | e]; [| discriminate]. simpl.
  destruct (execute eng _) as [res | e] eqn:He; [| discriminate].
  rewrite run_pyupgrade_fmt, Hs. simpl.
  destruct (decode (FallibleProcessResult.stdout res)) as [out |] eqn:Ho;
    [| discriminate].
  destruct (decode (FallibleProcessResult.stderr res)) as [err |] eqn:Hr;
    [| discriminate].
  intros [= <- <-]. exists sf, pex, res, out, err. simpl.
  repeat split; assumption.
Qed.

End pyupgrade_facts.

(** ** The skip flag *)

(** Black checks its skip flag first: a skipped Black issues no request at
    all. *)
Lemma black_fmt_skip_no_request `{Imports} eng request black python_setup :
  Black.skip black = true ->
  run eng (black_rules.black_fmt request black python_setup)
  = ([], Ok (FmtResult.skip (black_rules.name black))).
Proof. intros Hs. rewrite run_black_fmt, Hs. reflexivity. Qed.

(** A skipped pyupgrade has run its process by the time the flag is read,
    whenever the sources and the tool could be materialized. *)
Lemma pyupgrade_fmt_skip_executes `{Imports} eng request pyupgrade sf pex :
  PyUpgrade.skip pyupgrade = true ->
  source_files eng (map pyupgrade_rules.source (field_sets request)) = Ok sf ->
  venv_pex eng (PyUpgrade.to_pex_request pyupgrade) = Ok pex ->
  process_executions (fst (run eng (pyupgrade_rules.fmt request pyupgrade))) = 1.
Proof.
  intros Hs Hsf Hpex. rewrite run_fmt, run_run_pyupgrade, Hsf, Hpex. simpl.
  destruct (execute eng _); simpl; [| reflexivity].
  rewrite run_pyupgrade_fmt, Hs. reflexivity.
Qed.

(** C1 (the claim fails on pyupgrade): with the skip flag of pyupgrade set,
    the plugin returns a result with [skipped = true], and the trace holds one
    process execution, issued before the flag was read. *)
Theorem C1_pyupgrade_skip_runs_process :
  let request := mkFmtRequest examples.pyupgrade_fs None in
  let plugin := @pyupgrade_rules.fmt examples.imports request (examples.pyupgrade true) in
  PyUpgrade.skip (examples.pyupgrade true) = true /\
  exists t r,
    run (examples.engine (examples.rewrites "" 0)) plugin = (t, Ok r)
    /\ FmtResult.skipped r = true
    /\ process_executions t = 1.
Proof. simpl. split; [reflexivity |]. eexists _, _. vm_compute. repeat split. Qed.

(** ** Runtime resolution *)

(** C2: the tool is materialized under the constraint of the field sets when
    the [interpreter_constraints] option is at its default and that constraint
    requires Python 3.8 or newer, and under the constraint declared for Black
    in every other case. *)
Theorem C2_resolve_runtime `{Imports} eng
  (request : black_rules.BlackRequest) black python_setup :
  let unit_constraint :=
    create_from_compatibility_fields
      (map black_rules.interpreter_constraints (field_sets request)) python_setup in
  let wants_newer :=
    Black.options_is_default black "interpreter_constraints"
    && requires_python38_or_newer unit_constraint (interpreter_universe python_setup) in
  let requested :=
    pex_requests (fst (run eng (black_rules.setup_black request black python_setup))) in
  (wants_newer = true ->
   requested = [Black.to_pex_request black (Some unit_constraint)])
  /\ (wants_newer = false ->
      requested = [Black.to_pex_request black (Some (Black.interpreter_constraints black))]).
Proof.
  intros unit_constraint wants_newer requested.
  assert (E : requested =
              [Black.to_pex_request black
                 (Some (black_rules.tool_interpreter_constraints
                          request black python_setup))]).
  { unfold requested. rewrite run_setup_black.
    destruct (join2 _ _) as [[sf pex] | e]; simpl; [| reflexivity].
    destruct (merge_digests eng _); reflexivity. }
  rewrite E. unfold black_rules.tool_interpreter_constraints.
  fold unit_constraint. fold wants_newer.
  split; intros ->; reflexivity.
Qed.

Lemma C2_resolve_runtime_witness :
  (let request := mkFmtRequest examples.black_fs38 None in
   pex_requests
     (fst (run (examples.engine (examples.rewrites "" 0))
             (@black_rules.setup_black examples.imports request (examples.black false true) [])))
   = [mkPexRequest "black" (Some [">=3.8"; ">=3.6"])])
  /\ (let request := mkFmtRequest examples.black_fs38 None in
      pex_requests
        (fst (run (examples.engine (examples.rewrites "" 0))
                (@black_rules.setup_black examples.imports request (examples.black false false) [])))
      = [mkPexRequest "black" (Some [">=3.6"])]).
Proof.
  split.
  - apply (@C2_resolve_runtime examples.imports (examples.engine (examples.rewrites "" 0))
             (mkFmtRequest examples.black_fs38 None) (examples.black false true) []).
    reflexivity.
  - apply (@C2_resolve_runtime examples.imports (examples.engine (examples.rewrites "" 0))
             (mkFmtRequest examples.black_fs38 None) (examples.black false false) []).
    reflexivity.
Defined.

(** ** The prior formatter's snapshot *)

(** What both rules do with the chosen snapshot, the prior result when the
    request carries one and the fresh snapshot of the sources otherwise: its
    digest goes into the input of the process specification, its files are
    the declared outputs, it is recorded as the original snapshot, and the
    process handed on (Black) or executed (pyupgrade) is the one the engine
    built from that specification. *)
Lemma chosen_snapshot_reaches_process `{Imports} eng
  (prior : option Snapshot) (fresh : SourceFiles) :
  let used := match prior with Some p => p | None => snapshot fresh end in
  (forall fs black python_setup t setup,
     source_files eng (map black_rules.source fs) = Ok fresh ->
     run eng (black_rules.setup_black (mkFmtRequest fs prior) black python_setup)
     = (t, Ok setup) ->
     let mreq :=
       [digest used;
        digest (config_snapshot
                  (config_files eng (Black.config_request black (dirs used))))] in
     black_rules.original_snapshot setup = used
     /\ merge_requests t = [mreq]
     /\ exists vp,
          process_specs t = [vp]
          /\ black_rules.process setup = venv_pex_process eng vp
          /\ merge_digests eng mreq = Ok (vp_input_digest vp)
          /\ vp_output_files vp = files used
          /\ exists flags, vp_argv vp = flags ++ Black.args black ++ files used)
  /\ (forall fs pyupgrade t result,
        source_files eng (map pyupgrade_rules.source fs) = Ok fresh ->
        run eng (pyupgrade_rules.run_pyupgrade (mkFmtRequest fs prior) pyupgrade)
        = (t, Ok result) ->
        pyupgrade_rules.original_snapshot result = used
        /\ exists vp,
             process_specs t = [vp]
             /\ executed_processes t = [venv_pex_process eng vp]
             /\ execute eng (venv_pex_process eng vp)
                = Ok (pyupgrade_rules.process_result result)
             /\ vp_input_digest vp = digest used
             /\ vp_output_files vp = files used
             /\ vp_argv vp = PyUpgrade.args pyupgrade ++ files (snapshot fresh)).
Proof.
  intros used. split.
  - intros fs black python_setup t setup Hsf. rewrite run_setup_black. simpl.
    rewrite Hsf.
    destruct (venv_pex eng _) as [pex | e]; [| discriminate]. simpl.
    unfold black_rules.source_files_snapshot; simpl. fold used.
    destruct (merge_digests eng _) as [d | e]; [| discriminate].
    intros [= <- <-]. simpl. split; [reflexivity | split; [reflexivity |]].
    eexists. split; [reflexivity | split; [reflexivity |]].
    split; [reflexivity | split; [reflexivity |]].
    exists ((if truthy (Black.config black)
             then ["--config"; default "" (Black.config black)]
             else []) ++ ["-W"; "{pants_concurrency}"]).
    simpl. rewrite <- app_assoc. reflexivity.
  - intros fs pyupgrade t result Hsf. rewrite run_run_pyupgrade. simpl.
    rewrite Hsf.
    destruct (venv_pex eng _) as [pex | e]; [| discriminate]. simpl.
    unfold pyupgrade_rules.source_files_snapshot; simpl. fold used.
    destruct (execute eng _) as [res | e] eqn:He; [| discriminate].
    intros [= <- <-]. simpl. split; [reflexivity |].
    eexists. split; [reflexivity | split; [reflexivity |]].
    split; [exact He |]. split; [reflexivity | split; reflexivity].
Qed.


(** ** Chains *)

(** A stage that is not skipped and returned a result: what it reports. *)
Lemma run_stage_ok `{Imports} eng (s : Stage) prior t r :
  stage_skip s = false ->
  run eng (run_stage s prior) = (t, Ok r) ->
  exists sf p res,
    source_files eng (stage_sources s) = Ok sf
    /\ FmtResult.original r = match prior with Some q => q | None => snapshot sf end
    /\ executed_processes t = [p]
    /\ execute eng p = Ok res
    /\ FmtResult.final r
       = snapshot_of_digest eng (FallibleProcessResult.output_digest res).
Proof.
  destruct s as [fs black python_setup | fs pyupgrade]; intros Hs Hrun;
    cbn [run_stage stage_skip] in Hs, Hrun; cbn [stage_sources].
  - apply black_fmt_ok in Hrun as (sf & pex & d & res & out & err & Hrun);
      [| exact Hs].
    simpl in Hrun.
    destruct Hrun as (Hsf & _ & _ & He & _ & _ & _ & -> & ->).
    exists sf. eexists. exists res. repeat split; try eassumption.
  - apply fmt_ok in Hrun as (sf & pex & res & out & err & Hrun); [| exact Hs].
    simpl in Hrun.
    destruct Hrun as (Hsf & _ & He & _ & _ & -> & ->).
    exists sf. eexists. exists res. repeat split; try eassumption.
Qed.

(** C4 (as the code has it): in a chain of two stages that are not skipped,
    each result reports as original the snapshot its stage received: the first
    one the snapshot before the chain ran, the second one the output of the
    first; the second result's final snapshot is the output of its own
    process. *)
Theorem C4_chain_stage_originals `{Imports} eng (A B : Stage) t rA rB :
  stage_skip A = false ->
  stage_skip B = false ->
  run eng (fmt_chain2 A B) = (t, Ok (rA, rB)) ->
  exists sfA pB resB tA tB,
    t = tA ++ tB
    /\ run eng (run_stage A None) = (tA, Ok rA)
    /\ run eng (run_stage B (Some (FmtResult.final rA))) = (tB, Ok rB)
    /\ source_files eng (stage_sources A) = Ok sfA
    /\ FmtResult.original rA = snapshot sfA
    /\ FmtResult.original rB = FmtResult.final rA
    /\ executed_processes tB = [pB]
    /\ execute eng pB = Ok resB
    /\ FmtResult.final rB
       = snapshot_of_digest eng (FallibleProcessResult.output_digest resB).
Proof.
  intros HA HB Hrun. unfold fmt_chain2 in Hrun.
  apply run_bind_ok in Hrun as (tA & a & t' & HrA & Hrun & ->).
  apply run_bind_ok in Hrun as (tB & b & t'' & HrB & Hret & ->).
  simpl in Hret. injection Hret as <- -> ->.
  destruct (run_stage_ok eng A None tA rA HA HrA)
    as (sfA & pA & resA & HsfA & HoA & _).
  destruct (run_stage_ok eng B _ tB rB HB HrB)
    as (sfB & pB & resB & _ & HoB & HeB & HxB & HfB).
  exists sfA, pB, resB, tA, tB. rewrite app_nil_r.
  repeat split; assumption.
Qed.

Lemma C4_chain_stage_originals_witness :
  let eng := examples.engine (examples.rewrites "" 0) in
  let A := @BlackStage examples.imports examples.black_fs
             (examples.black false true) [] in
  let B := @PyUpgradeStage examples.imports examples.pyupgrade_fs
             (examples.pyupgrade false) in
  exists t rA rB,
    run eng (fmt_chain2 A B) = (t, Ok (rA, rB))
    /\ FmtResult.original rA = examples.s_raw
    /\ FmtResult.original rB = FmtResult.final rA.
Proof.
  intros eng A B. eexists _, _, _. split; [vm_compute; reflexivity |].
  edestruct (@C4_chain_stage_originals examples.imports eng A B)
    as (sfA & pB & resB & tA & tB & _ & _ & _ & HsfA & HoA & HoB & _);
    [reflexivity | reflexivity | vm_compute; reflexivity |].
  injection HsfA as <-. split; [exact HoA | exact HoB].
Defined.

(** C4, against the claim: after Black rewrote [f.py], the result of the last
    stage reports Black's output as its original snapshot, not the snapshot
    the chain started with; and a skipped last stage reports the empty
    snapshot, not the snapshot it received. *)
Lemma C4_final_result_original_is_intermediate :
  let eng := examples.engine (examples.rewrites "" 0) in
  let A := @BlackStage examples.imports examples.black_fs
             (examples.black false true) [] in
  let B := @PyUpgradeStage examples.imports examples.pyupgrade_fs
             (examples.pyupgrade false) in
  let B' := @BlackStage examples.imports examples.black_fs
              (examples.black true true) [] in
  source_files eng (stage_sources A) = Ok (mkSourceFiles examples.s_raw)
  /\ (exists t rA rB,
        run eng (fmt_chain2 A B) = (t, Ok (rA, rB))
        /\ FmtResult.original rB = FmtResult.final rA
        /\ FmtResult.original rB <> examples.s_raw)
  /\ (exists t rA rB,
        run eng (fmt_chain2 A B') = (t, Ok (rA, rB))
        /\ FmtResult.original rB <> FmtResult.final rA).
Proof.
  intros eng A B B'. split; [reflexivity |]. split.
  - eexists _, _, _. split; [vm_compute; reflexivity |].
    split; [reflexivity | discriminate].
  - eexists _, _, _. split; [vm_compute; reflexivity |]. discriminate.
Qed.

(** ** Failed processes *)

(** C5 (as the code has it): Black asks for a [ProcessResult], so a non-zero
    exit status or a failed execution ends its stage with that failure, the
    captured streams inside, and no result is built.  pyupgrade asks for a
    [FallibleProcessResult]: a failed execution ends its stage, a non-zero
    exit status does not, and the result is built from that process's output
    digest and streams. *)
Theorem C5_failed_process `{Imports} eng :
  (forall request black python_setup t0 setup res,
     Black.skip black = false ->
     run eng (black_rules.setup_black request black python_setup) = (t0, Ok setup) ->
     execute eng (black_rules.process setup) = Ok res ->
     FallibleProcessResult.exit_code res <> 0%Z ->
     run eng (black_rules.black_fmt request black python_setup)
     = (t0 ++ [ExecuteCall (black_rules.process setup)],
        Failed (ProcessExecutionFailure
                  (FallibleProcessResult.exit_code res)
                  (FallibleProcessResult.stdout res)
                  (FallibleProcessResult.stderr res))))
  /\ (forall request black python_setup t0 setup e,
        Black.skip black = false ->
        run eng (black_rules.setup_black request black python_setup) = (t0, Ok setup) ->
        execute eng (black_rules.process setup) = Failed e ->
        run eng (black_rules.black_fmt request black python_setup)
        = (t0 ++ [ExecuteCall (black_rules.process setup)], Failed e))
  /\ (forall request pyupgrade sf pex,
        source_files eng (map pyupgrade_rules.source (field_sets request)) = Ok sf ->
        venv_pex eng (PyUpgrade.to_pex_request pyupgrade) = Ok pex ->
        let sfs := pyupgrade_rules.source_files_snapshot request sf in
        let p := venv_pex_process eng
                   (pyupgrade_rules.pyupgrade_process request pyupgrade pex sf sfs) in
        (forall e,
           execute eng p = Failed e ->
           snd (run eng (pyupgrade_rules.fmt request pyupgrade)) = Failed e)
        /\ (forall res out err,
              PyUpgrade.skip pyupgrade = false ->
              execute eng p = Ok res ->
              decode (FallibleProcessResult.stdout res) = Some out ->
              decode (FallibleProcessResult.stderr res) = Some err ->
              snd (run eng (pyupgrade_rules.fmt request pyupgrade))
              = Ok (FmtResult.mk sfs
                      (snapshot_of_digest eng
                         (FallibleProcessResult.output_digest res))
                      out err (pyupgrade_rules.name pyupgrade)))).
Proof.
  split; [| split].
  - intros request black python_setup t0 setup res Hs Hsetup He Hc.
    rewrite run_black_fmt, Hs, Hsetup. simpl. rewrite He.
    apply Z.eqb_neq in Hc. rewrite Hc. reflexivity.
  - intros request black python_setup t0 setup e Hs Hsetup He.
    rewrite run_black_fmt, Hs, Hsetup. simpl. rewrite He. reflexivity.
  - intros request pyupgrade sf pex Hsf Hpex sfs p. split.
    + intros e He. rewrite run_fmt, run_run_pyupgrade, Hsf, Hpex. simpl.
      fold sfs. fold p. rewrite He. reflexivity.
    + intros res out err Hs He Ho Hr.
      rewrite run_fmt, run_run_pyupgrade, Hsf, Hpex. simpl.
      fold sfs. fold p. rewrite He. simpl.
      rewrite run_pyupgrade_fmt, Hs. simpl. rewrite Ho, Hr. reflexivity.
Qed.

Lemma C5_failed_process_witness :
  let breq := mkFmtRequest examples.black_fs None in
  let preq := mkFmtRequest examples.pyupgrade_fs None in
  let black := examples.black false true in
  let pyupgrade := examples.pyupgrade false in
  let crash := fun _ : Process => Failed (SandboxError "timed out") in
  snd (run (examples.engine (examples.rewrites "oops" 123))
         (@black_rules.black_fmt examples.imports breq black []))
  = Failed (ProcessExecutionFailure 123 (examples.text "oops") (examples.text ""))
  /\ snd (run (examples.engine crash)
            (@black_rules.black_fmt examples.imports breq black []))
     = Failed (SandboxError "timed out")
  /\ snd (run (examples.engine crash)
            (@pyupgrade_rules.fmt examples.imports preq pyupgrade))
     = Failed (SandboxError "timed out")
  /\ snd (run (examples.engine (examples.rewrites "oops" 123))
            (@pyupgrade_rules.fmt examples.imports preq pyupgrade))
     = Ok (FmtResult.mk examples.s_raw examples.s_fmt "oops" "" "pyupgrade").
Proof.
  intros breq preq black pyupgrade crash. split; [| split; [| split]].
  - destruct (@C5_failed_process examples.imports
                (examples.engine (examples.rewrites "oops" 123))) as (Hb & _ & _).
    refine (f_equal snd
              (Hb breq black [] _ _
                 (FallibleProcessResult.mk (examples.text "oops")
                    (examples.text "") 123 examples.d_fmt) eq_refl _ _ _));
      [vm_compute; reflexivity | reflexivity | discriminate].
  - destruct (@C5_failed_process examples.imports (examples.engine crash))
      as (_ & Hb & _).
    refine (f_equal snd
              (Hb breq black [] _ _ (SandboxError "timed out") eq_refl _ _));
      [vm_compute; reflexivity | reflexivity].
  - destruct (@C5_failed_process examples.imports (examples.engine crash))
      as (_ & _ & Hp).
    destruct (Hp preq pyupgrade (mkSourceFiles examples.s_raw)
                (mkVenvPex "pyupgrade.pex") eq_refl eq_refl) as [Hfail _].
    apply Hfail. reflexivity.
  - destruct (@C5_failed_process examples.imports
                (examples.engine (examples.rewrites "oops" 123))) as (_ & _ & Hp).
    destruct (Hp preq pyupgrade (mkSourceFiles examples.s_raw)
                (mkVenvPex "pyupgrade.pex") eq_refl eq_refl) as [_ Hok].
    refine (Hok (FallibleProcessResult.mk (examples.text "oops")
                   (examples.text "") 123 examples.d_fmt) "oops" "" _ _ _ _);
      reflexivity.
Defined.

(** C5, against the claim: pyupgrade's process exits with status 1, and the
    plugin returns a result whose final snapshot is that process's output. *)
Lemma C5_pyupgrade_nonzero_exit_yields_result :
  let eng := examples.engine (examples.rewrites "" 1) in
  let request := mkFmtRequest examples.pyupgrade_fs None in
  exists t r p res,
    run eng (@pyupgrade_rules.fmt examples.imports request (examples.pyupgrade false))
    = (t, Ok r)
    /\ executed_processes t = [p]
    /\ execute eng p = Ok res
    /\ FallibleProcessResult.exit_code res = 1%Z
    /\ FmtResult.final r
       = snapshot_of_digest eng (FallibleProcessResult.output_digest res).
Proof.
  intros eng request. eexists _, _, _, _.
  split; [vm_compute; reflexivity |]. repeat split.
Qed.

(** ** The process specification *)

(** pyupgrade puts the files of the fresh source snapshot on the command
    line, also when the request carries a prior result. *)
Remark pyupgrade_argv_lists_fresh_files `{Imports} eng request pyupgrade t result :
  run eng (pyupgrade_rules.run_pyupgrade request pyupgrade) = (t, Ok result) ->
  exists sf vp,
    source_files eng (map pyupgrade_rules.source (field_sets request)) = Ok sf
    /\ process_specs t = [vp]
    /\ vp_argv vp = PyUpgrade.args pyupgrade ++ files (snapshot sf).
Proof.
  rewrite run_run_pyupgrade.
  destruct (source_files eng _) as [sf | e]; [| discriminate].
  destruct (venv_pex eng _) as [pex | e]; [| discriminate]. simpl.
  destruct (execute eng _) as [res | e]; [| discriminate].
  intros [= <- <-]. exists sf. eexists. repeat split.
Qed.

(** C6 (as the code has it): the process of Black has the command line
    [--config path] (when a path is configured), [-W {pants_concurrency}], the
    user's arguments and the files of the chosen snapshot; it declares those
    files as outputs, passes the number of field sets as available
    concurrency, and takes the merged digest as input.  The process of
    pyupgrade declares the files of the chosen snapshot as outputs, takes the
    digest of the chosen snapshot as input and passes no concurrency; its
    command line is the user's arguments and, for a request without prior
    result, the files of the chosen snapshot. *)
Theorem C6_process_spec `{Imports} eng :
  (forall (request : black_rules.BlackRequest) black python_setup t setup,
     run eng (black_rules.setup_black request black python_setup) = (t, Ok setup) ->
     exists sf vp,
       let used := black_rules.source_files_snapshot request sf in
       source_files eng (map black_rules.source (field_sets request)) = Ok sf
       /\ process_specs t = [vp]
       /\ vp_argv vp
          = match Black.config black with
            | Some c => if String.eqb c "" then [] else ["--config"; c]
            | None => []
            end
            ++ ["-W"; "{pants_concurrency}"] ++ Black.args black ++ files used
       /\ vp_output_files vp = files used
       /\ vp_concurrency_available vp = Some (length (field_sets request))
       /\ merge_digests eng
            [digest used;
             digest (config_snapshot
                       (config_files eng (Black.config_request black (dirs used))))]
          = Ok (vp_input_digest vp))
  /\ (forall (request : pyupgrade_rules.PyUpgradeRequest) pyupgrade t result,
        run eng (pyupgrade_rules.run_pyupgrade request pyupgrade) = (t, Ok result) ->
        exists sf vp,
          let used := pyupgrade_rules.source_files_snapshot request sf in
          source_files eng (map pyupgrade_rules.source (field_sets request)) = Ok sf
          /\ process_specs t = [vp]
          /\ vp_output_files vp = files used
          /\ vp_input_digest vp = digest used
          /\ vp_concurrency_available vp = None
          /\ (prior_formatter_result request = None ->
              vp_argv vp = PyUpgrade.args pyupgrade ++ files used)).
Proof.
  split.
  - intros request black python_setup t setup. rewrite run_setup_black.
    destruct (source_files eng _) as [sf | e]; [| discriminate].
    destruct (venv_pex eng _) as [pex | e]; [| discriminate]. simpl.
    destruct (merge_digests eng _) as [d | e] eqn:Hm; [| discriminate].
    intros [= <- <-]. exists sf. eexists. simpl.
    split; [reflexivity | split; [reflexivity |]].
    split; [| split; [reflexivity | split; [reflexivity | exact Hm]]].
    unfold black_rules.black_process, truthy; simpl.
    destruct (Black.config black) as [c |]; simpl; [| reflexivity].
    destruct (String.eqb c ""); reflexivity.
  - intros request pyupgrade t result. rewrite run_run_pyupgrade.
    destruct (source_files eng _) as [sf | e]; [| discriminate].
    destruct (venv_pex eng _) as [pex | e]; [| discriminate]. simpl.
    destruct (execute eng _) as [res | e]; [| discriminate].
    intros [= <- <-]. exists sf. eexists. simpl.
    split; [reflexivity | split; [reflexivity |]].
    split; [reflexivity | split; [reflexivity | split; [reflexivity |]]].
    intros Hprior. unfold pyupgrade_rules.source_files_snapshot, SourceFiles_files.
    now rewrite Hprior.
Qed.

Lemma C6_process_spec_witness :
  let eng := examples.engine (examples.rewrites "" 0) in
  let breq := mkFmtRequest examples.black_fs None in
  let preq := mkFmtRequest examples.pyupgrade_fs None in
  (exists vp,
     process_specs
       (fst (run eng (@black_rules.setup_black examples.imports breq
                        (examples.black false true) []))) = [vp]
     /\ vp_argv vp = ["-W"; "{pants_concurrency}"; "f.py"]
     /\ vp_concurrency_available vp = Some 1)
  /\ (exists vp,
        process_specs
          (fst (run eng (@pyupgrade_rules.run_pyupgrade examples.imports preq
                           (examples.pyupgrade false)))) = [vp]
        /\ vp_argv vp = ["--py36-plus"; "f.py"]
        /\ vp_concurrency_available vp = None).
Proof.
  intros eng breq preq.
  destruct (@C6_process_spec examples.imports eng) as [Hb Hp]. split.
  - edestruct (Hb breq (examples.black false true) [])
      as (sf & vp & Hsf & Hvp & Hargv & _ & Hconc & _);
      [vm_compute; reflexivity |].
    injection Hsf as <-. exists vp.
    split; [exact Hvp | split; [exact Hargv | exact Hconc]].
  - edestruct (Hp preq (examples.pyupgrade false))
      as (sf & vp & Hsf & Hvp & _ & _ & Hconc & Hargv);
      [vm_compute; reflexivity |].
    injection Hsf as <-. exists vp.
    split; [exact Hvp | split; [exact (Hargv eq_refl) | exact Hconc]].
Defined.

(** C6, against the claim: the process of pyupgrade carries no concurrency
    hint, and its input is the digest of the snapshot, no digest was merged. *)
Lemma C6_pyupgrade_process_differs :
  let eng := examples.engine (examples.rewrites "" 0) in
  let request := mkFmtRequest examples.pyupgrade_fs None in
  exists t result vp,
    run eng (@pyupgrade_rules.run_pyupgrade examples.imports request
               (examples.pyupgrade false)) = (t, Ok result)
    /\ process_specs t = [vp]
    /\ vp_concurrency_available vp <> Some (length (field_sets request))
    /\ merge_requests t = []
    /\ vp_input_digest vp = digest examples.s_raw.
Proof.
  intros eng request. eexists _, _, _.
  split; [vm_compute; reflexivity |].
  split; [reflexivity | split; [discriminate | split; reflexivity]].
Qed.

(** ** Configuration discovery and the input digest *)

(** C7 (as the code has it): Black discovers its configuration in the
    directories of the chosen snapshot and the input of its process is the
    merge of the digest of that snapshot with the digest of the discovered
    configuration.  pyupgrade discovers no configuration and merges nothing:
    the input of its process is the digest of the chosen snapshot. *)
Theorem C7_config_and_input_digest `{Imports} eng :
  (forall (request : black_rules.BlackRequest) black python_setup t setup,
     run eng (black_rules.setup_black request black python_setup) = (t, Ok setup) ->
     exists sf vp creq,
       let used := black_rules.source_files_snapshot request sf in
       let mreq := [digest used; digest (config_snapshot (config_files eng creq))] in
       source_files eng (map black_rules.source (field_sets request)) = Ok sf
       /\ config_requests t = [creq]
       /\ creq = Black.config_request black (dirs used)
       /\ cfr_dirs creq = dirs used
       /\ merge_requests t = [mreq]
       /\ process_specs t = [vp]
       /\ merge_digests eng mreq = Ok (vp_input_digest vp))
  /\ (forall (request : pyupgrade_rules.PyUpgradeRequest) pyupgrade t result,
        run eng (pyupgrade_rules.run_pyupgrade request pyupgrade) = (t, Ok result) ->
        exists sf vp,
          let used := pyupgrade_rules.source_files_snapshot request sf in
          source_files eng (map pyupgrade_rules.source (field_sets request)) = Ok sf
          /\ config_requests t = []
          /\ merge_requests t = []
          /\ process_specs t = [vp]
          /\ vp_input_digest vp = digest used).
Proof.
  split.
  - intros request black python_setup t setup. rewrite run_setup_black.
    destruct (source_files eng _) as [sf | e]; [| discriminate].
    destruct (venv_pex eng _) as [pex | e]; [| discriminate]. simpl.
    destruct (merge_digests eng _) as [d | e] eqn:Hm; [| discriminate].
    intros [= <- <-]. exists sf. eexists. eexists. simpl.
    split; [reflexivity | split; [reflexivity | split; [reflexivity |]]].
    split; [reflexivity | split; [reflexivity | split; [reflexivity | exact Hm]]].
  - intros request pyupgrade t result. rewrite run_run_pyupgrade.
    destruct (source_files eng _) as [sf | e]; [| discriminate].
    destruct (venv_pex eng _) as [pex | e]; [| discriminate]. simpl.
    destruct (execute eng _) as [res | e]; [| discriminate].
    intros [= <- <-]. exists sf. eexists. simpl.
    split; [reflexivity | split; [reflexivity | split; [reflexivity |]]].
    split; reflexivity.
Qed.

Lemma C7_config_and_input_digest_witness :
  let eng := examples.engine (examples.rewrites "" 0) in
  let breq := mkFmtRequest examples.black_fs (Some examples.s_fmt) in
  let preq := mkFmtRequest examples.pyupgrade_fs (Some examples.s_fmt) in
  (exists vp,
     process_specs
       (fst (run eng (@black_rules.setup_black examples.imports breq
                        (examples.black false true) []))) = [vp]
     /\ Ok (vp_input_digest vp)
        = merge_digests eng [examples.d_fmt; EMPTY_DIGEST])
  /\ (exists vp,
        process_specs
          (fst (run eng (@pyupgrade_rules.run_pyupgrade examples.imports preq
                           (examples.pyupgrade false)))) = [vp]
        /\ vp_input_digest vp = examples.d_fmt).
Proof.
  intros eng breq preq.
  destruct (@C7_config_and_input_digest examples.imports eng) as [Hb Hp]. split.
  - edestruct (Hb breq (examples.black false true) [])
      as (sf & vp & creq & Hsf & _ & Hcreq & _ & _ & Hvp & Hin);
      [vm_compute; reflexivity |].
    exists vp. split; [exact Hvp |]. rewrite Hcreq in Hin.
    symmetry. exact Hin.
  - edestruct (Hp preq (examples.pyupgrade false))
      as (sf & vp & Hsf & _ & _ & Hvp & Hin);
      [vm_compute; reflexivity |].
    exists vp. split; [exact Hvp | exact Hin].
Defined.

(** C7, against the claim: a pyupgrade run asks for no configuration files
    and for no merge. *)
Lemma C7_pyupgrade_discovers_no_config :
  let eng := examples.engine (examples.rewrites "" 0) in
  let request := mkFmtRequest examples.pyupgrade_fs None in
  exists t r,
    run eng (@pyupgrade_rules.fmt examples.imports request (examples.pyupgrade false))
    = (t, Ok r)
    /\ FmtResult.skipped r = false
    /\ config_requests t = []
    /\ merge_requests t = [].
Proof.
  intros eng request. eexists _, _.
  split; [vm_compute; reflexivity |]. repeat split.
Qed.

(** ** The captured streams *)

(** C8 (as the code has it): the streams that Black reports are the captured
    bytes decoded, with the sandbox paths stripped; the streams that pyupgrade
    reports are the captured bytes decoded, as they are. *)
Theorem C8_reported_streams `{Imports} eng :
  (forall request black python_setup t r,
     Black.skip black = false ->
     run eng (black_rules.black_fmt request black python_setup) = (t, Ok r) ->
     exists p res out err,
       executed_processes t = [p]
       /\ execute eng p = Ok res
       /\ decode (FallibleProcessResult.stdout res) = Some out
       /\ decode (FallibleProcessResult.stderr res) = Some err
       /\ FmtResult.stdout r = strip_chroot out
       /\ FmtResult.stderr r = strip_chroot err)
  /\ (forall request pyupgrade t r,
        PyUpgrade.skip pyupgrade = false ->
        run eng (pyupgrade_rules.fmt request pyupgrade) = (t, Ok r) ->
        exists p res out err,
          executed_processes t = [p]
          /\ execute eng p = Ok res
          /\ decode (FallibleProcessResult.stdout res) = Some out
          /\ decode (FallibleProcessResult.stderr res) = Some err
          /\ FmtResult.stdout r = out
          /\ FmtResult.stderr r = err).
Proof.
  split.
  - intros request black python_setup t r Hs Hrun.
    apply black_fmt_ok in Hrun as (sf & pex & d & res & out & err & Hrun);
      [| exact Hs].
    simpl in Hrun. destruct Hrun as (_ & _ & _ & He & _ & Ho & Hr & -> & ->).
    eexists. exists res, out, err.
    split; [reflexivity | split; [exact He |]].
    split; [exact Ho | split; [exact Hr | split; reflexivity]].
  - intros request pyupgrade t r Hs Hrun.
    apply fmt_ok in Hrun as (sf & pex & res & out & err & Hrun); [| exact Hs].
    simpl in Hrun. destruct Hrun as (_ & _ & He & Ho & Hr & -> & ->).
    eexists. exists res, out, err.
    split; [reflexivity | split; [exact He |]].
    split; [exact Ho | split; [exact Hr | split; reflexivity]].
Qed.

Lemma C8_reported_streams_witness :
  let eng :=
    examples.engine (examples.rewrites "/tmp/process-executionAbC123/f.py" 0) in
  (exists t r,
     run eng (@black_rules.black_fmt examples.imports
                (mkFmtRequest examples.black_fs None) (examples.black false true) [])
     = (t, Ok r)
     /\ FmtResult.stdout r = "f.py")
  /\ (exists t r,
        run eng (@pyupgrade_rules.fmt examples.imports
                   (mkFmtRequest examples.pyupgrade_fs None)
                   (examples.pyupgrade false))
        = (t, Ok r)
        /\ FmtResult.stdout r = "/tmp/process-executionAbC123/f.py").
Proof.
  intros eng.
  destruct (@C8_reported_streams examples.imports eng) as [Hb Hp]. split.
  - eexists _, _. split; [vm_compute; reflexivity |].
    edestruct (Hb (mkFmtRequest examples.black_fs None) (examples.black false true) [])
      as (p & res & out & err & _ & He & Ho & _ & Hout & _);
      [reflexivity | vm_compute; reflexivity |].
    injection He as <-. injection Ho as <-. exact Hout.
  - eexists _, _. split; [vm_compute; reflexivity |].
    edestruct (Hp (mkFmtRequest examples.pyupgrade_fs None) (examples.pyupgrade false))
      as (p & res & out & err & _ & He & Ho & _ & Hout & _);
      [reflexivity | vm_compute; reflexivity |].
    injection He as <-. injection Ho as <-. exact Hout.
Defined.

(** C8, against the claim: the tool prints a path inside the sandbox, and the
    result of pyupgrade reports it unchanged, where stripping would leave
    [f.py]. *)
Lemma C8_pyupgrade_keeps_chroot_path :
  let out := "/tmp/process-executionAbC123/f.py" in
  let eng := examples.engine (examples.rewrites out 0) in
  let request := mkFmtRequest examples.pyupgrade_fs None in
  exists t r,
    run eng (@pyupgrade_rules.fmt examples.imports request (examples.pyupgrade false))
    = (t, Ok r)
    /\ @decode examples.imports (examples.text out) = Some out
    /\ FmtResult.stdout r = out
    /\ FmtResult.stdout r <> @strip_chroot examples.imports out.
Proof.
  intros out eng request. eexists _, _.
  split; [vm_compute; reflexivity |].
  split; [reflexivity | split; [reflexivity |]].
  vm_compute. discriminate.
Qed.

(** ** Options parsing *)

Section options_facts.
Import options_parsing.
Context `{World}.
Variable full_options : full_options_t.

Lemma empty_heap_wf : heap_wf empty_heap.
Proof. intros i _. apply lookup_empty. Qed.

(** A read of a cached value changes nothing and computes nothing. *)
Lemma options_cached (o : _Options) (h : Heap) v :
  memo h !! ident o = Some v -> options full_options o h = (h, Ok v).
Proof. intros Hm. unfold options. now rewrite Hm. Qed.

(** A cache entry, once there, stays as it is. *)
Lemma options_keeps_memo (o : _Options) (h : Heap) i v :
  memo h !! i = Some v -> memo (fst (options full_options o h)) !! i = Some v.
Proof.
  intros Hi. unfold options.
  destruct (memo h !! ident o) as [w |] eqn:Ho; [exact Hi |].
  destruct (full_options _ _) as [w | e]; simpl; [| exact Hi].
  rewrite lookup_insert_ne; [exact Hi |]. intros E. rewrite E in Ho. congruence.
Qed.

Lemma new_Options_keeps_memo ob bc (h : Heap) i v :
  memo h !! i = Some v ->
  memo (fst (new_Options full_options ob bc h)) !! i = Some v.
Proof.
  intros Hi. unfold new_Options, __post_init__.
  set (self := mk_Options (next_id h) ob bc).
  set (h1 := mkHeap (Pos.succ (next_id h)) (memo h) (full_options_calls h)).
  pose proof (options_keeps_memo self h1 i v Hi) as Hk.
  destruct (options full_options self h1) as [h2 [[w |] | e]]; exact Hk.
Qed.

Lemma steps_keep_memo ops (h : Heap) i v :
  memo h !! i = Some v -> memo (steps full_options ops h) !! i = Some v.
Proof.
  revert h. induction ops as [| op ops IH]; intros h Hi; [exact Hi |].
  apply IH. destruct op as [ob bc | o]; simpl.
  - now apply new_Options_keeps_memo.
  - now apply options_keeps_memo.
Qed.

(** The instance that a construction returns. *)
Lemma new_Options_fields ob bc (h h' : Heap) o :
  new_Options full_options ob bc h = (h', Ok o) ->
  o = mk_Options (next_id h) ob bc.
Proof.
  unfold new_Options.
  destruct (__post_init__ _ _ _) as [h2 [[] | e]]; [| discriminate].
  now intros [= _ <-].
Qed.

End options_facts.

Section options_eager.
Import options_parsing.
Context `{World}.
Variable full_options : full_options_t.

(** C9: a construction runs [full_options] once and caches what it returned;
    it fails when [full_options] raises or returns [None]; every later read
    of [options], whatever was constructed or read in between, returns the
    cached value and leaves the heap, and so the count of [full_options]
    calls, as it was. *)
Theorem C9_options_eager_and_cached (h : Heap) ob bc :
  heap_wf h ->
  (forall e,
     full_options ob bc = Failed e ->
     snd (new_Options full_options ob bc h) = Failed e)
  /\ (full_options ob bc = Ok None ->
      snd (new_Options full_options ob bc h) = Failed AssertionError)
  /\ (forall v,
        full_options ob bc = Ok (Some v) ->
        exists h' o,
          new_Options full_options ob bc h = (h', Ok o)
          /\ full_options_calls h' = S (full_options_calls h)
          /\ memo h' !! ident o = Some (Some v)
          /\ forall ops,
               let h'' := steps full_options ops h' in
               options full_options o h'' = (h'', Ok (Some v))).
Proof.
  intros Hwf.
  assert (Hfresh : memo h !! next_id h = None) by (apply Hwf; reflexivity).
  unfold new_Options, __post_init__, options; simpl. rewrite Hfresh.
  split; [| split].
  - intros e ->. reflexivity.
  - intros ->. reflexivity.
  - intros v ->. eexists _, _. split; [reflexivity |]. simpl.
    split; [reflexivity |].
    assert (Hm : <[next_id h:=Some v]> (memo h) !! next_id h = Some (Some v))
      by apply lookup_insert_eq.
    split; [exact Hm |].
    intros ops.
    rewrite (steps_keep_memo full_options ops
               (mkHeap (Pos.succ (next_id h)) (<[next_id h:=Some v]> (memo h))
                  (S (full_options_calls h)))
               (next_id h) (Some v) Hm).
    reflexivity.
Qed.

End options_eager.

Lemma C9_options_eager_and_cached_witness :
  let fo := examples.full_options_of_args in
  exists h' o,
    @options_parsing.new_Options examples.world fo "ob" "bc"
      options_parsing.empty_heap = (h', Ok o)
    /\ options_parsing.full_options_calls h' = 1
    /\ options_parsing.memo h' !! options_parsing.ident o = Some (Some ["ob"; "bc"])
    /\ forall ops,
         let h'' := options_parsing.steps fo ops h' in
         options_parsing.options fo o h'' = (h'', Ok (Some ["ob"; "bc"])).
Proof.
  intros fo.
  refine (proj2 (proj2
            (@C9_options_eager_and_cached examples.world fo
               options_parsing.empty_heap "ob" "bc" _)) ["ob"; "bc"] _).
  - intros i _. reflexivity.
  - reflexivity.
Defined.

(** C10: two runs of [parse_options] whose bootstrappers and build
    configurations are equal return values that compare equal, whatever the
    heaps they ran in and whatever [full_options] derived in each run; the
    comparison of the two results is the comparison of the inputs. *)
Theorem C10_parse_options_equality `{options_parsing.World}
  (fo1 fo2 : options_parsing.full_options_t) bc1 bc2 sv1 sv2 ob1 ob2 h1 h2 h1' h2' o1 o2 :
  options_parsing.session_OptionsBootstrapper sv1 = Some ob1 ->
  options_parsing.session_OptionsBootstrapper sv2 = Some ob2 ->
  options_parsing.parse_options fo1 bc1 sv1 h1 = (h1', Ok o1) ->
  options_parsing.parse_options fo2 bc2 sv2 h2 = (h2', Ok o2) ->
  options_parsing._Options_eq o1 o2
  = options_parsing.OptionsBootstrapper_eq ob1 ob2
    && options_parsing.BuildConfiguration_eq bc1 bc2
  /\ (options_parsing.OptionsBootstrapper_eq ob1 ob2 = true ->
      options_parsing.BuildConfiguration_eq bc1 bc2 = true ->
      options_parsing._Options_eq o1 o2 = true).
Proof.
  intros Hs1 Hs2. unfold options_parsing.parse_options. rewrite Hs1, Hs2.
  intros Hn1 Hn2.
  apply new_Options_fields in Hn1. apply new_Options_fields in Hn2.
  subst o1 o2. unfold options_parsing._Options_eq; simpl.
  split; [reflexivity |]. intros -> ->. reflexivity.
Qed.

Lemma C10_parse_options_equality_witness :
  let fo1 := examples.full_options_of_env "ci" in
  let fo2 := examples.full_options_of_env "laptop" in
  let sv := @options_parsing.mkSessionValues examples.world (Some "bootstrapper") in
  let h1 := options_parsing.empty_heap in
  let h2 := fst (options_parsing.new_Options fo2 "other" "config" h1) in
  exists h1' h2' o1 o2,
    options_parsing.parse_options fo1 "config" sv h1 = (h1', Ok o1)
    /\ options_parsing.parse_options fo2 "config" sv h2 = (h2', Ok o2)
    /\ options_parsing.ident o1 <> options_parsing.ident o2
    /\ options_parsing.memo h1' !! options_parsing.ident o1
       <> options_parsing.memo h2' !! options_parsing.ident o2
    /\ options_parsing._Options_eq o1 o2 = true.
Proof.
  intros fo1 fo2 sv h1 h2. eexists _, _, _, _.
  split; [vm_compute; reflexivity |].
  split; [vm_compute; reflexivity |].
  split; [discriminate |].
  split; [vm_compute; discriminate |].
  refine (proj2 (@C10_parse_options_equality examples.world fo1 fo2
                   "config" "config" sv sv "bootstrapper" "bootstrapper"
                   h1 h2 _ _ _ _ eq_refl eq_refl _ _) eq_refl eq_refl);
    vm_compute; reflexivity.
Defined.

(** * Further properties of the rules *)

(** ** Black: skipping, failures, and the requests of a run *)

(** X1: with its skip flag set, Black issues no request to any collaborator
    and returns a result marked as skipped under its own name, on every
    engine. *)
Theorem X1_black_skip_issues_nothing `{Imports} eng request black python_setup :
  Black.skip black = true ->
  fst (run eng (black_rules.black_fmt request black python_setup)) = []
  /\ exists r,
       snd (run eng (black_rules.black_fmt request black python_setup)) = Ok r
       /\ FmtResult.skipped r = true
       /\ FmtResult.formatter_name r = Black.options_scope black.
Proof.
  intros Hs. rewrite run_black_fmt, Hs. split; [reflexivity |].
  eexists. split; [reflexivity |]. split; reflexivity.
Qed.

Lemma X1_black_skip_issues_nothing_witness :
  let eng :=
    with_source_files (examples.engine (fun _ => Failed (SandboxError "down")))
      (fun _ => Failed (SourceNotFound "f.py")) in
  fst (run eng (@black_rules.black_fmt examples.imports
                  (mkFmtRequest examples.black_fs None)
                  (examples.black true true) [])) = [].
Proof.
  intros eng.
  exact (proj1 (@X1_black_skip_issues_nothing examples.imports eng
                  (mkFmtRequest examples.black_fs None)
                  (examples.black true true) [] eq_refl)).
Defined.

(** X2: when the sources or the tool cannot be materialized, the stage fails
    with that failure after the two acquisition requests: no configuration is
    discovered, nothing is merged, and no process is built or executed.  For
    pyupgrade this holds whatever its skip flag says. *)
Theorem X2_acquisition_failure_stops_stage `{Imports} eng e :
  (forall (request : black_rules.BlackRequest) black python_setup,
     Black.skip black = false ->
     let srcs := map black_rules.source (field_sets request) in
     let preq :=
       Black.to_pex_request black
         (Some (black_rules.tool_interpreter_constraints request black python_setup)) in
     source_files eng srcs = Failed e
     \/ (venv_pex eng preq = Failed e /\ exists sf, source_files eng srcs = Ok sf) ->
     run eng (black_rules.black_fmt request black python_setup)
     = ([SourceFilesCall srcs; PexCall preq], Failed e))
  /\ (forall (request : pyupgrade_rules.PyUpgradeRequest) pyupgrade,
        let srcs := map pyupgrade_rules.source (field_sets request) in
        let preq := PyUpgrade.to_pex_request pyupgrade in
        source_files eng srcs = Failed e
        \/ (venv_pex eng preq = Failed e /\ exists sf, source_files eng srcs = Ok sf) ->
        run eng (pyupgrade_rules.fmt request pyupgrade)
        = ([SourceFilesCall srcs; PexCall preq], Failed e)).
Proof.
  split.
  - intros request black python_setup Hs srcs preq Hfail.
    rewrite run_black_fmt, Hs, run_setup_black. fold srcs preq.
    destruct Hfail as [-> | [-> [sf ->]]]; reflexivity.
  - intros request pyupgrade srcs preq Hfail.
    rewrite run_fmt, run_run_pyupgrade. fold srcs preq.
    destruct Hfail as [-> | [-> [sf ->]]]; reflexivity.
Qed.

Lemma X2_acquisition_failure_stops_stage_witness :
  let missing :=
    with_source_files (examples.engine (examples.rewrites "" 0))
      (fun _ => Failed (SourceNotFound "f.py")) in
  let no_runtime :=
    with_venv_pex (examples.engine (examples.rewrites "" 0))
      (fun _ => Failed NoCompatibleRuntime) in
  run missing (@black_rules.black_fmt examples.imports
                 (mkFmtRequest examples.black_fs None)
                 (examples.black false true) [])
  = ([SourceFilesCall ["f.py"]; PexCall (mkPexRequest "black" (Some [">=3.6"]))],
     Failed (SourceNotFound "f.py"))
  /\ run no_runtime (@pyupgrade_rules.fmt examples.imports
                       (mkFmtRequest examples.pyupgrade_fs None)
                       (examples.pyupgrade true))
     = ([SourceFilesCall ["f.py"]; PexCall (mkPexRequest "pyupgrade" None)],
        Failed NoCompatibleRuntime).
Proof.
  intros missing no_runtime. split.
  - refine (proj1 (@X2_acquisition_failure_stops_stage examples.imports missing
                     (SourceNotFound "f.py"))
              (mkFmtRequest examples.black_fs None) (examples.black false true) []
              eq_refl _).
    left. reflexivity.
  - refine (proj2 (@X2_acquisition_failure_stops_stage examples.imports no_runtime
                     NoCompatibleRuntime)
              (mkFmtRequest examples.pyupgrade_fs None) (examples.pyupgrade true) _).
    right. split; [reflexivity |]. eexists. reflexivity.
Defined.

(** X3: when the digest of the chosen snapshot and the digest of the
    configuration cannot be merged, Black fails with that failure and neither
    builds nor executes a process. *)
Theorem X3_black_merge_conflict_builds_nothing `{Imports} eng
  (request : black_rules.BlackRequest) black python_setup sf pex e :
  Black.skip black = false ->
  source_files eng (map black_rules.source (field_sets request)) = Ok sf ->
  venv_pex eng
    (Black.to_pex_request black
       (Some (black_rules.tool_interpreter_constraints request black python_setup)))
  = Ok pex ->
  let used := black_rules.source_files_snapshot request sf in
  merge_digests eng
    [digest used;
     digest (config_snapshot
               (config_files eng (Black.config_request black (dirs used))))]
  = Failed e ->
  let out := run eng (black_rules.black_fmt request black python_setup) in
  snd out = Failed e
  /\ process_specs (fst out) = []
  /\ executed_processes (fst out) = []
  /\ config_requests (fst out) = [Black.config_request black (dirs used)].
Proof.
  intros Hs Hsf Hpex used Hm out. unfold out.
  rewrite run_black_fmt, Hs, run_setup_black, Hsf, Hpex. simpl.
  fold used. rewrite Hm. repeat split.
Qed.

Lemma X3_black_merge_conflict_builds_nothing_witness :
  let eng :=
    with_merge_digests (examples.engine (examples.rewrites "" 0))
      (fun _ => Failed (MergeConflict "pyproject.toml")) in
  let out :=
    run eng (@black_rules.black_fmt examples.imports
               (mkFmtRequest examples.black_fs None)
               (examples.black false true) []) in
  snd out = Failed (MergeConflict "pyproject.toml")
  /\ process_specs (fst out) = []
  /\ executed_processes (fst out) = []
  /\ config_requests (fst out) = [mkConfigFilesRequest "black" None [""]].
Proof.
  intros eng out.
  exact (@X3_black_merge_conflict_builds_nothing examples.imports eng
           (mkFmtRequest examples.black_fs None) (examples.black false true) []
           (mkSourceFiles examples.s_raw) (mkVenvPex "black.pex")
           (MergeConflict "pyproject.toml") eq_refl eq_refl eq_refl eq_refl).
Defined.

Ltac trace_facts :=
  unfold process_executions; simpl; split; [lia | reflexivity].

(** X4: whatever the collaborators answer, a run of either plugin executes
    at most one process, and the process it executes is the one the engine
    built from the specification the rule assembled: nothing is retried and
    nothing else is run. *)
Theorem X4_at_most_one_execution `{Imports} eng :
  (forall request black python_setup,
     let t := fst (run eng (black_rules.black_fmt request black python_setup)) in
     process_executions t <= 1
     /\ executed_processes t = map (venv_pex_process eng) (process_specs t))
  /\ (forall request pyupgrade,
        let t := fst (run eng (pyupgrade_rules.fmt request pyupgrade)) in
        process_executions t <= 1
        /\ executed_processes t = map (venv_pex_process eng) (process_specs t)).
Proof.
  split.
  - intros request black python_setup. cbv zeta.
    rewrite run_black_fmt, run_setup_black.
    destruct (Black.skip black); [trace_facts |].
    destruct (source_files eng _) as [sf | e];
      [| trace_facts].
    destruct (venv_pex eng _) as [pex | e];
      [| trace_facts].
    simpl. destruct (merge_digests eng _) as [d | e];
      [| trace_facts].
    simpl. destruct (execute eng _) as [res | e];
      [| trace_facts].
    destruct (FallibleProcessResult.exit_code res =? 0)%Z;
      [| trace_facts].
    destruct (decode (FallibleProcessResult.stdout res)),
      (decode (FallibleProcessResult.stderr res));
      trace_facts.
  - intros request pyupgrade. cbv zeta.
    rewrite run_fmt, run_run_pyupgrade.
    destruct (source_files eng _) as [sf | e];
      [| trace_facts].
    destruct (venv_pex eng _) as [pex | e];
      [| trace_facts].
    simpl. destruct (execute eng _) as [res | e];
      [| trace_facts].
    rewrite run_pyupgrade_fmt.
    destruct (PyUpgrade.skip pyupgrade); [trace_facts |].
    simpl.
    destruct (decode (FallibleProcessResult.stdout res)),
      (decode (FallibleProcessResult.stderr res));
      trace_facts.
Qed.

(** ** What a result says about its stage *)

(** X5: every result that a plugin returns carries the plugin's scope name.
    When the skip flag is set it is the skip result, which reports itself
    skipped; when the flag is not set, its final snapshot is the snapshot of
    the digest in the last request of the run, the snapshot request. *)
Theorem X5_result_names_its_plugin `{Imports} eng :
  (forall request black python_setup t r,
     run eng (black_rules.black_fmt request black python_setup) = (t, Ok r) ->
     FmtResult.formatter_name r = Black.options_scope black
     /\ (Black.skip black = true ->
         r = FmtResult.skip (Black.options_scope black)
         /\ FmtResult.skipped r = true)
     /\ (Black.skip black = false ->
         exists d, last t = Some (SnapshotCall d)
                   /\ FmtResult.final r = snapshot_of_digest eng d))
  /\ (forall request pyupgrade t r,
        run eng (pyupgrade_rules.fmt request pyupgrade) = (t, Ok r) ->
        FmtResult.formatter_name r = PyUpgrade.options_scope pyupgrade
        /\ (PyUpgrade.skip pyupgrade = true ->
            r = FmtResult.skip (PyUpgrade.options_scope pyupgrade)
            /\ FmtResult.skipped r = true)
        /\ (PyUpgrade.skip pyupgrade = false ->
            exists d, last t = Some (SnapshotCall d)
                      /\ FmtResult.final r = snapshot_of_digest eng d)).
Proof.
  split.
  - intros request black python_setup t r Hrun.
    destruct (Black.skip black) eqn:Hs.
    + rewrite run_black_fmt, Hs in Hrun. injection Hrun as <- <-.
      split; [reflexivity | split; [| discriminate]].
      intros _. split; reflexivity.
    + apply black_fmt_ok in Hrun as (sf & pex & d & res & out & err & Hrun);
        [| exact Hs].
      simpl in Hrun. destruct Hrun as (_ & _ & _ & _ & _ & _ & _ & -> & ->).
      split; [reflexivity | split; [discriminate |]].
      intros _. eexists. split; reflexivity.
  - intros request pyupgrade t r Hrun.
    destruct (PyUpgrade.skip pyupgrade) eqn:Hs.
    + rewrite run_fmt, run_run_pyupgrade in Hrun.
      destruct (source_files eng _) as [sf | e]; [| discriminate].
      destruct (venv_pex eng _) as [pex | e]; [| discriminate]. simpl in Hrun.
      destruct (execute eng _) as [res | e]; [| discriminate].
      rewrite run_pyupgrade_fmt, Hs in Hrun. injection Hrun as <- <-.
      split; [reflexivity | split; [| discriminate]].
      intros _. split; reflexivity.
    + apply fmt_ok in Hrun as (sf & pex & res & out & err & Hrun); [| exact Hs].
      simpl in Hrun. destruct Hrun as (_ & _ & _ & _ & _ & -> & ->).
      split; [reflexivity | split; [discriminate |]].
      intros _. eexists. split; reflexivity.
Qed.

Lemma X5_result_names_its_plugin_witness :
  let eng := examples.engine (examples.rewrites "" 0) in
  (exists t r,
     run eng (@black_rules.black_fmt examples.imports
                (mkFmtRequest examples.black_fs None)
                (examples.black false true) []) = (t, Ok r)
     /\ FmtResult.formatter_name r = "black"
     /\ FmtResult.final r = examples.s_fmt)
  /\ (exists t r,
        run eng (@pyupgrade_rules.fmt examples.imports
                   (mkFmtRequest examples.pyupgrade_fs None)
                   (examples.pyupgrade true)) = (t, Ok r)
        /\ FmtResult.formatter_name r = "pyupgrade"
        /\ FmtResult.skipped r = true).
Proof.
  intros eng.
  destruct (@X5_result_names_its_plugin examples.imports eng) as [Hb Hp]. split.
  - eexists _, _. split; [vm_compute; reflexivity |].
    edestruct (Hb (mkFmtRequest examples.black_fs None) (examples.black false true) [])
      as (Hn & _ & Hf); [vm_compute; reflexivity |].
    split; [exact Hn |].
    destruct (Hf eq_refl) as (d & Hlast & Hfinal).
    injection Hlast as <-. exact Hfinal.
  - eexists _, _. split; [vm_compute; reflexivity |].
    edestruct (Hp (mkFmtRequest examples.pyupgrade_fs None) (examples.pyupgrade true))
      as (Hn & Hk & _); [vm_compute; reflexivity |].
    split; [exact Hn | exact (proj2 (Hk eq_refl))].
Defined.

(** The [skipped] property looks at the content of a result, not at the
    skip flag: a Black run that is not skipped, over an empty snapshot, whose
    tool prints nothing and leaves an empty output, returns a result that
    reports itself skipped. *)
Example unskipped_empty_run_reports_skipped :
  let silent := fun _ : Process =>
                  Ok (FallibleProcessResult.mk [] [] 0 EMPTY_DIGEST) in
  let eng :=
    with_merge_digests
      (with_source_files (examples.engine silent)
         (fun _ => Ok (mkSourceFiles EMPTY_SNAPSHOT)))
      (fun _ => Ok EMPTY_DIGEST) in
  exists t r,
    run eng (@black_rules.black_fmt examples.imports (mkFmtRequest [] None)
               (examples.black false true) []) = (t, Ok r)
    /\ process_executions t = 1
    /\ FmtResult.skipped r = true.
Proof.
  intros silent eng. eexists _, _. split; [vm_compute; reflexivity |].
  split; reflexivity.
Qed.

(** X6: when a Black request carries a prior result, what the read of the
    sources returned has no influence: with any other successful answer to
    the source request, [setup_black] issues the same requests and returns
    the same [Setup]. *)
Theorem X6_black_prior_ignores_fresh_read `{Imports} eng
  (request : black_rules.BlackRequest) black python_setup prior sf sf' f :
  prior_formatter_result request = Some prior ->
  source_files eng (map black_rules.source (field_sets request)) = Ok sf ->
  f (map black_rules.source (field_sets request)) = Ok sf' ->
  run (with_source_files eng f) (black_rules.setup_black request black python_setup)
  = run eng (black_rules.setup_black request black python_setup).
Proof.
  intros Hprior Hsf Hf. rewrite !run_setup_black. simpl.
  rewrite Hsf, Hf. unfold black_rules.source_files_snapshot. rewrite Hprior.
  destruct (venv_pex eng _); reflexivity.
Qed.

Lemma X6_black_prior_ignores_fresh_read_witness :
  let eng := examples.engine (examples.rewrites "" 0) in
  let request := mkFmtRequest examples.black_fs (Some examples.s_fmt) in
  let other := fun _ : SourceFilesRequest =>
                 Ok (mkSourceFiles (mkSnapshot EMPTY_DIGEST ["g.py"] ["src"])) in
  run (with_source_files eng other)
    (@black_rules.setup_black examples.imports request (examples.black false true) [])
  = run eng
      (@black_rules.setup_black examples.imports request (examples.black false true) []).
Proof.
  intros eng request other.
  exact (@X6_black_prior_ignores_fresh_read examples.imports eng request
           (examples.black false true) [] examples.s_fmt
           (mkSourceFiles examples.s_raw)
           (mkSourceFiles (mkSnapshot EMPTY_DIGEST ["g.py"] ["src"])) other
           eq_refl eq_refl eq_refl).
Defined.

(** ** Streams that are not text *)

(** X7: [pyupgrade_fmt] decodes the two streams after it has loaded the output
    snapshot: when it is not skipped and one of them does not decode, it fails
    with [UnicodeDecodeError] and returns no result; when it is skipped it
    decodes nothing and returns the skip result whatever the streams hold. *)
Theorem X7_pyupgrade_undecodable_stream `{Imports} eng
  (result : pyupgrade_rules.PyUpgradeResult) pyupgrade :
  let res := pyupgrade_rules.process_result result in
  decode (FallibleProcessResult.stdout res) = None
  \/ decode (FallibleProcessResult.stderr res) = None ->
  run eng (pyupgrade_rules.pyupgrade_fmt result pyupgrade)
  = if PyUpgrade.skip pyupgrade
    then ([], Ok (FmtResult.skip (PyUpgrade.options_scope pyupgrade)))
    else ([SnapshotCall (FallibleProcessResult.output_digest res)],
          Failed UnicodeDecodeError).
Proof.
  intros res Hdec. rewrite run_pyupgrade_fmt. fold res.
  destruct (PyUpgrade.skip pyupgrade); [reflexivity |]. simpl.
  destruct Hdec as [-> | ->]; [reflexivity |].
  destruct (decode (FallibleProcessResult.stdout res)); reflexivity.
Qed.

Lemma X7_pyupgrade_undecodable_stream_witness :
  let eng := examples.engine (examples.rewrites "" 0) in
  let result :=
    pyupgrade_rules.mkPyUpgradeResult
      (FallibleProcessResult.mk (examples.text "ok") [xff] 0 examples.d_fmt)
      examples.s_raw in
  run eng (@pyupgrade_rules.pyupgrade_fmt examples.imports result
             (examples.pyupgrade false))
  = ([SnapshotCall examples.d_fmt], Failed UnicodeDecodeError)
  /\ run eng (@pyupgrade_rules.pyupgrade_fmt examples.imports result
                (examples.pyupgrade true))
     = ([], Ok (FmtResult.skip "pyupgrade")).
Proof.
  intros eng result. split.
  - refine (@X7_pyupgrade_undecodable_stream examples.imports eng result
              (examples.pyupgrade false) _).
    right. reflexivity.
  - refine (@X7_pyupgrade_undecodable_stream examples.imports eng result
              (examples.pyupgrade true) _).
    right. reflexivity.
Defined.

(** ** Runs that succeed *)

(** X8: when every collaborator answers, the tool exits with status 0 and
    both streams are text, a Black stage that is not skipped returns a result:
    it has issued, in this order, the source and tool requests, the
    configuration discovery, the merge, the process build, the execution and
    the snapshot of the output digest, and the result holds the chosen
    snapshot, the output snapshot and the stripped streams. *)
Theorem X8_black_run_succeeds `{Imports} eng
  (request : black_rules.BlackRequest) black python_setup sf pex d res out err :
  let srcs := map black_rules.source (field_sets request) in
  let preq :=
    Black.to_pex_request black
      (Some (black_rules.tool_interpreter_constraints request black python_setup)) in
  let used := black_rules.source_files_snapshot request sf in
  let creq := Black.config_request black (dirs used) in
  let mreq := [digest used; digest (config_snapshot (config_files eng creq))] in
  let vp := black_rules.black_process request black pex used d in
  let p := venv_pex_process eng vp in
  Black.skip black = false ->
  source_files eng srcs = Ok sf ->
  venv_pex eng preq = Ok pex ->
  merge_digests eng mreq = Ok d ->
  execute eng p = Ok res ->
  FallibleProcessResult.exit_code res = 0%Z ->
  decode (FallibleProcessResult.stdout res) = Some out ->
  decode (FallibleProcessResult.stderr res) = Some err ->
  run eng (black_rules.black_fmt request black python_setup)
  = ([SourceFilesCall srcs; PexCall preq; ConfigFilesCall creq; MergeCall mreq;
      BuildProcessCall vp; ExecuteCall p;
      SnapshotCall (FallibleProcessResult.output_digest res)],
     Ok (FmtResult.mk used
           (snapshot_of_digest eng (FallibleProcessResult.output_digest res))
           (strip_chroot out) (strip_chroot err) (Black.options_scope black))).
Proof.
  intros srcs preq used creq mreq vp p Hs Hsf Hpex Hm He Hc Ho Hr.
  rewrite run_black_fmt, Hs, run_setup_black. fold srcs preq.
  rewrite Hsf, Hpex. simpl. fold used. fold creq. fold mreq. rewrite Hm. simpl.
  fold vp. fold p. rewrite He, Hc. simpl. rewrite Ho, Hr. reflexivity.
Qed.

Lemma X8_black_run_succeeds_witness :
  let eng := examples.engine (examples.rewrites "reformatted f.py" 0) in
  snd (run eng (@black_rules.black_fmt examples.imports
                  (mkFmtRequest examples.black_fs None)
                  (examples.black false true) []))
  = Ok (FmtResult.mk examples.s_raw examples.s_fmt "reformatted f.py" ""
          "black").
Proof.
  intros eng.
  refine (f_equal snd
            (@X8_black_run_succeeds examples.imports eng
               (mkFmtRequest examples.black_fs None) (examples.black false true) []
               (mkSourceFiles examples.s_raw) (mkVenvPex "black.pex")
               (examples.merged [examples.d_raw; EMPTY_DIGEST])
               (FallibleProcessResult.mk (examples.text "reformatted f.py")
                  (examples.text "") 0 examples.d_fmt)
               "reformatted f.py" "" _ _ _ _ _ _ _ _));
    reflexivity.
Defined.

(** X9: when the sources and the tool materialize, the execution returns
    and both streams are text, a pyupgrade stage that is not skipped returns
    a result whatever the exit status: it has issued the source and tool
    requests, the process build, the execution and the snapshot of the output
    digest, and the result holds the chosen snapshot, the output snapshot and
    the decoded streams. *)
Theorem X9_pyupgrade_run_succeeds `{Imports} eng
  (request : pyupgrade_rules.PyUpgradeRequest) pyupgrade sf pex res out err :
  let srcs := map pyupgrade_rules.source (field_sets request) in
  let preq := PyUpgrade.to_pex_request pyupgrade in
  let used := pyupgrade_rules.source_files_snapshot request sf in
  let vp := pyupgrade_rules.pyupgrade_process request pyupgrade pex sf used in
  let p := venv_pex_process eng vp in
  PyUpgrade.skip pyupgrade = false ->
  source_files eng srcs = Ok sf ->
  venv_pex eng preq = Ok pex ->
  execute eng p = Ok res ->
  decode (FallibleProcessResult.stdout res) = Some out ->
  decode (FallibleProcessResult.stderr res) = Some err ->
  run eng (pyupgrade_rules.fmt request pyupgrade)
  = ([SourceFilesCall srcs; PexCall preq; BuildProcessCall vp; ExecuteCall p;
      SnapshotCall (FallibleProcessResult.output_digest res)],
     Ok (FmtResult.mk used
           (snapshot_of_digest eng (FallibleProcessResult.output_digest res))
           out err (PyUpgrade.options_scope pyupgrade))).
Proof.
  intros srcs preq used vp p Hs Hsf Hpex He Ho Hr.
  rewrite run_fmt, run_run_pyupgrade. fold srcs preq.
  rewrite Hsf, Hpex. simpl. fold used. fold vp. fold p. rewrite He.
  rewrite run_pyupgrade_fmt, Hs. simpl. rewrite Ho, Hr. reflexivity.
Qed.

Lemma X9_pyupgrade_run_succeeds_witness :
  let eng := examples.engine (examples.rewrites "Rewriting f.py" 1) in
  snd (run eng (@pyupgrade_rules.fmt examples.imports
                  (mkFmtRequest examples.pyupgrade_fs (Some examples.s_fmt))
                  (examples.pyupgrade false)))
  = Ok (FmtResult.mk examples.s_fmt examples.s_fmt "Rewriting f.py" ""
          "pyupgrade").
Proof.
  intros eng.
  refine (f_equal snd
            (@X9_pyupgrade_run_succeeds examples.imports eng
               (mkFmtRequest examples.pyupgrade_fs (Some examples.s_fmt))
               (examples.pyupgrade false)
               (mkSourceFiles examples.s_raw) (mkVenvPex "pyupgrade.pex")
               (FallibleProcessResult.mk (examples.text "Rewriting f.py")
                  (examples.text "") 1 examples.d_fmt)
               "Rewriting f.py" "" _ _ _ _ _ _));
    reflexivity.
Defined.

(** ** More on options parsing *)

Section options_more.
Import options_parsing options_scoping.
Context `{World}.
Variable full_options : full_options_t.

(** A construction on a heap without stale cache entries, case by case. *)
Lemma new_Options_run (h : Heap) ob bc :
  heap_wf h ->
  new_Options full_options ob bc h =
  match full_options ob bc with
  | Ok (Some v) =>
      (mkHeap (Pos.succ (next_id h)) (<[next_id h := Some v]> (memo h))
         (S (full_options_calls h)),
       Ok (mk_Options (next_id h) ob bc))
  | Ok None =>
      (mkHeap (Pos.succ (next_id h)) (<[next_id h := None]> (memo h))
         (S (full_options_calls h)),
       Failed AssertionError)
  | Failed e =>
      (mkHeap (Pos.succ (next_id h)) (memo h) (S (full_options_calls h)),
       Failed e)
  end.
Proof.
  intros Hwf.
  assert (Hfresh : memo h !! next_id h = None) by (apply Hwf; reflexivity).
  unfold new_Options, __post_init__, options; simpl. rewrite Hfresh.
  destruct (full_options ob bc) as [[v |] | e]; reflexivity.
Qed.

Lemma new_Options_keeps_wf (h : Heap) ob bc :
  heap_wf h -> heap_wf (fst (new_Options full_options ob bc h)).
Proof.
  intros Hwf. rewrite new_Options_run by exact Hwf.
  destruct (full_options ob bc) as [[v |] | e]; simpl; intros i Hi; simpl in *.
  - rewrite lookup_insert_ne by lia. apply Hwf. lia.
  - rewrite lookup_insert_ne by lia. apply Hwf. lia.
  - apply Hwf. lia.
Qed.

Lemma options_keeps_wf (h : Heap) (o : _Options) :
  heap_wf h -> (ident o < next_id h)%positive ->
  heap_wf (fst (options full_options o h)).
Proof.
  intros Hwf Ha. unfold options.
  destruct (memo h !! ident o); [exact Hwf |].
  destruct (full_options _ _) as [v | e]; simpl; intros i Hi; simpl in *.
  - rewrite lookup_insert_ne by lia. now apply Hwf.
  - now apply Hwf.
Qed.

(** X10: every heap the program reaches, by constructing [_Options] values
    and reading [options] of instances that exist, has no cache entry at an
    identity that is not allocated yet: a new instance never finds a stale
    value in the cache. *)
Theorem X10_reachable_heaps_have_no_stale_cache (h : Heap) :
  reachable full_options h ->
  heap_wf h /\ memo h !! next_id h = None.
Proof.
  intros Hr.
  assert (Hwf : heap_wf h).
  { induction Hr as [| h ob bc _ IH | h o _ IH Ha].
    - apply empty_heap_wf.
    - now apply new_Options_keeps_wf.
    - now apply options_keeps_wf. }
  split; [exact Hwf |]. apply Hwf. reflexivity.
Qed.

(** X11: the cache is per instance, not per argument: two constructions with
    the same arguments return two instances with different identities, run
    [full_options] twice, and leave one cache entry for each instance. *)
Theorem X11_equal_arguments_distinct_instances (h : Heap) ob bc v :
  heap_wf h ->
  full_options ob bc = Ok (Some v) ->
  exists h1 o1 h2 o2,
    new_Options full_options ob bc h = (h1, Ok o1)
    /\ new_Options full_options ob bc h1 = (h2, Ok o2)
    /\ ident o1 <> ident o2
    /\ options_bootstrapper o1 = options_bootstrapper o2
    /\ build_config o1 = build_config o2
    /\ full_options_calls h2 = S (S (full_options_calls h))
    /\ memo h2 !! ident o1 = Some (Some v)
    /\ memo h2 !! ident o2 = Some (Some v).
Proof.
  intros Hwf Hfo.
  pose proof (new_Options_keeps_wf h ob bc Hwf) as Hwf1.
  pose proof (new_Options_run h ob bc Hwf) as E1. rewrite Hfo in E1.
  rewrite E1 in Hwf1. simpl in Hwf1.
  pose proof (new_Options_run _ ob bc Hwf1) as E2. rewrite Hfo in E2.
  simpl in E2.
  eexists _, _, _, _. split; [exact E1 |]. split; [exact E2 |]. simpl.
  split; [lia |]. split; [reflexivity |]. split; [reflexivity |].
  split; [reflexivity |]. split.
  - rewrite lookup_insert_ne by lia. apply lookup_insert_eq.
  - apply lookup_insert_eq.
Qed.

(** X12: the outcome of [parse_options] on a heap without stale cache
    entries: [KeyError] when the session holds no bootstrapper, and then the
    heap is untouched; the failure of [full_options] when it raises;
    [AssertionError] when it returns [None]; and otherwise a new instance that
    carries the session's bootstrapper and the build configuration. *)
Theorem X12_parse_options_outcome (h : Heap) bc sv :
  heap_wf h ->
  snd (parse_options full_options bc sv h)
  = match session_OptionsBootstrapper sv with
    | None => Failed KeyError
    | Some ob =>
        match full_options ob bc with
        | Ok (Some _) => Ok (mk_Options (next_id h) ob bc)
        | Ok None => Failed AssertionError
        | Failed e => Failed e
        end
    end
  /\ (session_OptionsBootstrapper sv = None ->
      fst (parse_options full_options bc sv h) = h).
Proof.
  intros Hwf. unfold parse_options.
  destruct (session_OptionsBootstrapper sv) as [ob |]; [| split; reflexivity].
  split; [| discriminate].
  rewrite new_Options_run by exact Hwf.
  destruct (full_options ob bc) as [[v |] | e]; reflexivity.
Qed.

(** X13: [scope_options] on a value that [parse_options] returned reads the
    options derived at construction: whatever was constructed or read in
    between, it hands [for_scope] that value and the name of the scope, wraps
    what [for_scope] returns together with the scope, passes on its failure,
    and leaves the heap, and so the count of [full_options] calls, as it
    was. *)
Theorem X13_scope_options_reads_constructed_options
  (OptionValueContainer : Type)
  (for_scope : option Options -> string -> Outcome OptionValueContainer)
  (h h1 : Heap) bc sv o :
  heap_wf h ->
  parse_options full_options bc sv h = (h1, Ok o) ->
  exists ob v,
    session_OptionsBootstrapper sv = Some ob
    /\ full_options ob bc = Ok (Some v)
    /\ forall ops sc,
         let h2 := steps full_options ops h1 in
         scope_options OptionValueContainer full_options for_scope sc o h2
         = (h2,
            match for_scope (Some v) (scope sc) with
            | Ok c => Ok (mkScopedOptions OptionValueContainer sc c)
            | Failed e => Failed e
            end).
Proof.
  intros Hwf. unfold parse_options.
  destruct (session_OptionsBootstrapper sv) as [ob |]; [| discriminate].
  rewrite new_Options_run by exact Hwf.
  destruct (full_options ob bc) as [[v |] | e] eqn:Hfo; try discriminate.
  intros [= <- <-]. exists ob, v. split; [reflexivity |]. split; [exact Hfo |].
  intros ops sc. cbv zeta. set (h2 := steps full_options ops _).
  unfold scope_options.
  assert (Hm : memo h2 !! next_id h = Some (Some v)).
  { apply steps_keep_memo. simpl. apply lookup_insert_eq. }
  rewrite (options_cached full_options (mk_Options (next_id h) ob bc) h2 (Some v) Hm).
  destruct (for_scope (Some v) (scope sc)); reflexivity.
Qed.

End options_more.

Lemma X10_reachable_heaps_have_no_stale_cache_witness :
  let fo := examples.full_options_of_args in
  let h1 := fst (@options_parsing.new_Options examples.world fo "ob" "bc"
                   options_parsing.empty_heap) in
  let o := @options_parsing.mk_Options examples.world 1%positive "ob" "bc" in
  let h2 := fst (options_parsing.options fo o h1) in
  options_parsing.heap_wf h2
  /\ options_parsing.memo h2 !! options_parsing.next_id h2 = None.
Proof.
  intros fo h1 o h2.
  refine (@X10_reachable_heaps_have_no_stale_cache examples.world fo h2 _).
  apply options_scoping.reach_read; [| reflexivity].
  apply options_scoping.reach_new, options_scoping.reach_empty.
Defined.

Lemma X11_equal_arguments_distinct_instances_witness :
  let fo := examples.full_options_of_args in
  exists h1 o1 h2 o2,
    @options_parsing.new_Options examples.world fo "ob" "bc"
      options_parsing.empty_heap = (h1, Ok o1)
    /\ options_parsing.new_Options fo "ob" "bc" h1 = (h2, Ok o2)
    /\ options_parsing.ident o1 <> options_parsing.ident o2
    /\ options_parsing.full_options_calls h2 = 2.
Proof.
  intros fo.
  edestruct (@X11_equal_arguments_distinct_instances examples.world fo
               options_parsing.empty_heap "ob" "bc" ["ob"; "bc"])
    as (h1 & o1 & h2 & o2 & E1 & E2 & Hne & _ & _ & Hc & _).
  - intros i _. reflexivity.
  - reflexivity.
  - exists h1, o1, h2, o2.
    split; [exact E1 | split; [exact E2 | split; [exact Hne | exact Hc]]].
Defined.

Lemma X12_parse_options_outcome_witness :
  let fo := examples.full_options_of_args in
  let empty_session := @options_parsing.mkSessionValues examples.world None in
  let session :=
    @options_parsing.mkSessionValues examples.world (Some "bootstrapper") in
  snd (options_parsing.parse_options fo "config" empty_session
         options_parsing.empty_heap)
  = Failed KeyError
  /\ snd (options_parsing.parse_options fo "config" session
            options_parsing.empty_heap)
     = Ok (@options_parsing.mk_Options examples.world 1%positive
             "bootstrapper" "config").
Proof.
  intros fo empty_session session. split.
  - refine (proj1 (@X12_parse_options_outcome examples.world fo
                     options_parsing.empty_heap "config" empty_session _)).
    intros i _. reflexivity.
  - refine (proj1 (@X12_parse_options_outcome examples.world fo
                     options_parsing.empty_heap "config" session _)).
    intros i _. reflexivity.
Defined.

Lemma X13_scope_options_reads_constructed_options_witness :
  let fo := examples.full_options_of_args in
  let for_scope := fun (v : option (list string)) (s : string) =>
                     match v with
                     | Some l => Ok (s :: l)
                     | None => Failed AssertionError
                     end in
  let sv := @options_parsing.mkSessionValues examples.world (Some "bootstrapper") in
  exists h1 o,
    options_parsing.parse_options fo "config" sv options_parsing.empty_heap
    = (h1, Ok o)
    /\ forall ops,
         let h2 := options_parsing.steps fo ops h1 in
         options_scoping.scope_options (list string) fo for_scope
           (options_scoping.mkScope "black") o h2
         = (h2,
            Ok (options_scoping.mkScopedOptions (list string)
                  (options_scoping.mkScope "black")
                  ["black"; "bootstrapper"; "config"])).
Proof.
  intros fo for_scope sv.
  set (h1 := fst (options_parsing.parse_options fo "config" sv
                    options_parsing.empty_heap)).
  set (o := @options_parsing.mk_Options examples.world 1%positive
              "bootstrapper" "config").
  destruct (@X13_scope_options_reads_constructed_options examples.world fo
              (list string) for_scope options_parsing.empty_heap h1 "config" sv o)
    as (ob & v & Hs & Hfo & Hread).
  - intros i _. reflexivity.
  - vm_compute. reflexivity.
  - exists h1, o. split; [vm_compute; reflexivity |]. intros ops.
    injection Hs as <-. injection Hfo as <-.
    exact (Hread ops (options_scoping.mkScope "black")).
Defined.
